(** * The GIRAFFE trainer of SwapNeRF ([im2scene/giraffe/training.py])

    A shallow embedding of [Trainer] and of the part of the Python and
    PyTorch runtime its methods rely on, followed by the properties of the
    training, evaluation and visualisation steps.

    Conventions of the embedding.
    - Python floats and tensor entries are exact rationals ([Qc]); rounding
      error, infinities and NaN are outside the model.
    - A method is a computation in the monad [M]: it takes the world
      (networks, optimizers, random generator, file system) and returns a
      value or a raised exception together with the new world.
    - The networks, the losses of [im2scene.training], the metrics and the
      automatic differentiation are the fields of the class [Framework]. *)

From Stdlib Require Import QArith Qcanon Qround Lqa Ascii String.
From stdpp Require Import base option list strings pretty numbers gmap.

Local Open Scope Z_scope.

(** ** Python runtime *)

Module Py.

(** The exceptions the trainer can let through. *)
Inductive exn :=
  | AttributeError   (* a method looked up on [None] *)
  | KeyError (key : string)
  | IndexError
  | TypeError
  | ZeroDivisionError
  | RuntimeError.

Inductive result (A : Type) :=
  | Ok (a : A)
  | Raise (e : exn).
Arguments Ok {A} a.
Arguments Raise {A} e.

(** [str(n)] for an [int]. *)
Definition str_int (n : Z) : string := pretty n.

(** [n] zeros. *)
Fixpoint zeros (n : nat) : string :=
  match n with
  | O => ""
  | S n' => String "0"%char (zeros n')
  end.

(** [s.rjust(w, '0')]: zeros on the left up to width [w]. *)
Definition zfill_left (w : nat) (s : string) : string :=
  zeros (w - String.length s) +:+ s.

(** ['%010d' % n]: the sign counts in the width of ten. *)
Definition fmt_010d (n : Z) : string :=
  if n <? 0 then "-" +:+ zfill_left 9 (str_int (- n))
  else zfill_left 10 (str_int n).

(** [os.path.join(a, b)] for a relative [b]. *)
Definition ends_with_slash (a : string) : bool :=
  match last (list_ascii_of_string a) with
  | Some c => bool_decide (c = "/"%char)
  | None => false
  end.

Definition path_join (a b : string) : string :=
  if bool_decide (a = "") then b
  else if ends_with_slash a then a +:+ b
  else a +:+ "/" +:+ b.

(** [round(x, nd)] on a float: to the nearest multiple of [10^-nd] of the
    exact value, a tie going to the even neighbour.  [round_scaled] is the
    result counted in units of [10^-nd]. *)
Definition round_scaled (x : Qc) (nd : nat) : Z :=
  let y := (x * Qc_of_Z (10 ^ Z.of_nat nd))%Qc in
  let f := Qfloor y in
  let d := (y - Qc_of_Z f)%Qc in
  let half := Q2Qc (1 # 2) in
  if bool_decide (d < half)%Qc then f
  else if bool_decide (half < d)%Qc then f + 1
  else if Z.even f then f else f + 1.

(** The digits of a fraction without its trailing zeros; Python keeps one
    digit. *)
Fixpoint rstrip_zeros (s : string) : string :=
  match s with
  | EmptyString => ""
  | String c s' =>
    match rstrip_zeros s' with
    | EmptyString => if bool_decide (c = "0"%char) then "" else String c ""
    | r => String c r
    end
  end.

Definition strip_trailing_zeros (s : string) : string :=
  match rstrip_zeros s with
  | EmptyString => "0"
  | r => r
  end.

(** [repr(round(x, nd))] in positional notation, which is what Python
    prints for magnitudes below [1e16]: sign, integer part, point, the
    fraction without trailing zeros.  The sign is the sign of [x], so a
    negative value that rounds to zero prints as [-0.0]. *)
Definition repr_round (x : Qc) (nd : nat) : string :=
  let k := Z.abs (round_scaled x nd) in
  let p := 10 ^ Z.of_nat nd in
  (if bool_decide (x < 0)%Qc then "-" else "") +:+
  str_int (k / p) +:+ "." +:+
  strip_trailing_zeros (zfill_left nd (str_int (k mod p))).

(** [repr] of a tuple of two floats and of a list of such tuples. *)
Definition repr_pair (nd : nat) (p : Qc * Qc) : string :=
  "(" +:+ repr_round p.1 nd +:+ ", " +:+ repr_round p.2 nd +:+ ")".

Definition repr_pairs (nd : nat) (l : list (Qc * Qc)) : string :=
  "[" +:+ String.concat ", " (repr_pair nd <$> l) +:+ "]".

(** The file system: the content of each existing file. *)
Definition open_w (p : string) (fs : gmap string string) : gmap string string :=
  <[p := ""]> fs.

Definition open_a (p : string) (fs : gmap string string) : gmap string string :=
  match fs !! p with
  | Some _ => fs
  | None => <[p := ""]> fs
  end.

Definition write (p : string) (s : string) (fs : gmap string string)
  : gmap string string :=
  alter (λ c, c +:+ s) p fs.

Definition exists_ (p : string) (fs : gmap string string) : bool :=
  bool_decide (is_Some (fs !! p)).

(** The line feed. *)
Definition nl : string := String (ascii_of_nat 10) EmptyString.

(** The number of line feeds of a text. *)
Fixpoint count_nl (s : string) : nat :=
  match s with
  | EmptyString => 0
  | String c s' =>
    (if bool_decide (c = ascii_of_nat 10) then 1 else 0) + count_nl s'
  end%nat.

End Py.


(** ** Tensors *)

Module Torch.

(** An image is a [C x H x W] array and a batch a list of images: the
    batch dimension of a 4-D tensor is the outer list. *)
Abbreviation Image := (list (list (list Qc))).
Abbreviation Tensor := (list (list (list (list Qc)))).

Definition sum (l : list Qc) : Qc := foldr Qcplus 0%Qc l.

(** [t.mean()] of a 1-D tensor. *)
Definition mean (l : list Qc) : Qc :=
  (sum l / Qc_of_Z (Z.of_nat (length l)))%Qc.

Definition flatten_image (i : Image) : list Qc := concat (concat i).
Definition flatten (t : Tensor) : list Qc := concat (flatten_image <$> t).

(** [torch.nn.MSELoss()(a, b)]: the mean of the squared differences. *)
Definition MSELoss (a b : Tensor) : Qc :=
  mean (zip_with (λ x y, ((x - y) * (x - y))%Qc) (flatten a) (flatten b)).

Definition clamp1 (lo hi x : Qc) : Qc :=
  if bool_decide (x < lo)%Qc then lo
  else if bool_decide (hi < x)%Qc then hi else x.

(** [t.clamp_(lo, hi)] *)
Definition clamp (lo hi : Qc) (t : Tensor) : Tensor :=
  map (map (map (map (clamp1 lo hi)))) t.

(** [t[:, :n]]: the first [n] channels of every image. *)
Definition channels (n : nat) (t : Tensor) : Tensor := take n <$> t.

(** [torch.cat(ts, dim=0)], which refuses an empty list. *)
Definition cat (ts : list Tensor) : Py.result Tensor :=
  match ts with
  | [] => Py.Raise Py.RuntimeError
  | _ => Py.Ok (concat ts)
  end.

(** The squared norm of one image of a gradient. *)
Definition sq_norm (g : Image) : Qc :=
  sum ((λ v, (v * v)%Qc) <$> flatten_image g).

(** [np.transpose(m)] of a matrix given by its rows. *)
Definition transpose2 {A} (d : A) (m : list (list A)) : list (list A) :=
  match m with
  | [] => []
  | r :: _ => (λ j, (λ row, nth j row d) <$> m) <$> seq 0 (length r)
  end.

(** [np.transpose(img, (1, 2, 0))]: from [C x H x W] to [H x W x C]. *)
Definition transpose_hwc (img : Image) : Image :=
  transpose2 0%Qc <$> transpose2 [] img.

End Torch.

Import Torch.

(** ** The collaborators

    What the trainer imports and does not define: the two networks, the
    losses and metrics, the optimizer update and automatic
    differentiation. *)

Inductive GenMode := ModeTraining | ModeVal.

(** What a generator call returns: [(fake, swap, rand)], and the UV arrays
    [uvs] as a fourth component when [need_uv] is set. *)
Record GenOut := {
  fake : Tensor;
  swap : Tensor;
  rand : Tensor;
  uvs : list (list (list Qc));
}.

Class Framework := {
  Rng : Type;          (* state of the random generator *)
  Latents : Type;      (* the keyword arguments of [get_vis_dict] *)
  OptState : Type;     (* running statistics of an optimizer *)
  Array : Type;        (* a numpy array of feature statistics *)
  (** [generator(x_real, **latents, mode=.., need_uv=..)] on the given
      parameters and [training] flag. *)
  generator_forward :
    list Qc → bool → option Latents → GenMode → bool → Tensor → Rng →
    GenOut * Rng;
  (** [gen()]: a batch of fully random samples. *)
  generator_sample : list Qc → bool → Rng → Tensor * Rng;
  get_vis_dict : nat → Rng → Latents * Rng;
  (** [discriminator(x)]: one score per image. *)
  discriminator_forward : list Qc → bool → Tensor → list Qc;
  (** The value of [compute_bce(scores, target)] of [im2scene.training]. *)
  bce : list Qc → Qc → Qc;
  (** Gradient of a scalar function of a parameter vector, and of a scalar
      function of an input batch, at a point. *)
  param_grad : (list Qc → Qc) → list Qc → list Qc;
  input_grad : (Tensor → Qc) → Tensor → Tensor;
  (** One update of an optimizer from the gradient of its parameters. *)
  opt_step : OptState → list Qc → list Qc → OptState * list Qc;
  calculate_activation_statistics : Tensor → Array * Array;
  calculate_frechet_distance : Array → Array → Array → Array → Qc → Qc;
  make_grid : Tensor → nat → Image;
  png_encode : Image → string;
  (** [compare_psnr(a, b, data_range=1)] and
      [compare_ssim(a, b, multichannel=True, data_range=1)] on [H x W x C]. *)
  compare_psnr : Image → Image → Qc;
  compare_ssim : Image → Image → Qc;
}.

(** ** The world of a trainer *)

(** A network: its parameters, whether they require gradients, the
    [training] flag of the module, and the accumulated [.grad]. *)
Record Net := {
  params : list Qc;
  requires_grad : bool;
  training : bool;
  grad : option (list Qc);
}.

(** The network a Python variable refers to. *)
Inductive NetId := NGenerator | NGeneratorTest | NDiscriminator.

Definition NetId_eqb (a b : NetId) : bool :=
  match a, b with
  | NGenerator, NGenerator => true
  | NGeneratorTest, NGeneratorTest => true
  | NDiscriminator, NDiscriminator => true
  | _, _ => false
  end.

(** Calls into the framework, most recent last (ghost state). *)
Inductive Call :=
  | Forward (n : NetId) (grad_mode : bool)
  | Backward (loss : Qc)
  | Step (n : NetId)
  | UpdateAverage
  | SaveImage (path : string).

Section WithFramework.
Context `{F : Framework}.

(** [generator], [discriminator] and [generator_test] are the networks of
    [self.model]; [self.generator] and the others refer to the same
    parameters, wrapped in [DataParallel] or not.  [optimizer] holds the
    parameters of the generator and [optimizer_d] those of the
    discriminator. *)
Record World := {
  generator : Net;
  discriminator : Net;
  generator_test : option Net;
  optimizer : OptState;
  optimizer_d : OptState;
  grad_enabled : bool;
  rng : Rng;
  fs : gmap string string;
  calls : list Call;
}.

(** The configuration [__init__] stores. *)
Record Trainer := {
  vis_dir : option string;
  val_vis_dir : option string;
  multi_gpu : bool;
  fid_dict : gmap string Array;
  n_eval_iterations : nat;
  recon_weight : option Qc;
}.

Definition set_generator (n : Net) (w : World) : World :=
  {| generator := n; discriminator := discriminator w;
     generator_test := generator_test w; optimizer := optimizer w;
     optimizer_d := optimizer_d w; grad_enabled := grad_enabled w;
     rng := rng w; fs := fs w; calls := calls w |}.

Definition set_discriminator (n : Net) (w : World) : World :=
  {| generator := generator w; discriminator := n;
     generator_test := generator_test w; optimizer := optimizer w;
     optimizer_d := optimizer_d w; grad_enabled := grad_enabled w;
     rng := rng w; fs := fs w; calls := calls w |}.

Definition set_generator_test (n : option Net) (w : World) : World :=
  {| generator := generator w; discriminator := discriminator w;
     generator_test := n; optimizer := optimizer w;
     optimizer_d := optimizer_d w; grad_enabled := grad_enabled w;
     rng := rng w; fs := fs w; calls := calls w |}.

Definition set_optimizer (o : OptState) (w : World) : World :=
  {| generator := generator w; discriminator := discriminator w;
     generator_test := generator_test w; optimizer := o;
     optimizer_d := optimizer_d w; grad_enabled := grad_enabled w;
     rng := rng w; fs := fs w; calls := calls w |}.

Definition set_optimizer_d (o : OptState) (w : World) : World :=
  {| generator := generator w; discriminator := discriminator w;
     generator_test := generator_test w; optimizer := optimizer w;
     optimizer_d := o; grad_enabled := grad_enabled w;
     rng := rng w; fs := fs w; calls := calls w |}.

Definition set_grad_enabled (b : bool) (w : World) : World :=
  {| generator := generator w; discriminator := discriminator w;
     generator_test := generator_test w; optimizer := optimizer w;
     optimizer_d := optimizer_d w; grad_enabled := b;
     rng := rng w; fs := fs w; calls := calls w |}.

Definition set_rng (r : Rng) (w : World) : World :=
  {| generator := generator w; discriminator := discriminator w;
     generator_test := generator_test w; optimizer := optimizer w;
     optimizer_d := optimizer_d w; grad_enabled := grad_enabled w;
     rng := r; fs := fs w; calls := calls w |}.

Definition set_fs (f : gmap string string) (w : World) : World :=
  {| generator := generator w; discriminator := discriminator w;
     generator_test := generator_test w; optimizer := optimizer w;
     optimizer_d := optimizer_d w; grad_enabled := grad_enabled w;
     rng := rng w; fs := f; calls := calls w |}.

Definition set_calls (l : list Call) (w : World) : World :=
  {| generator := generator w; discriminator := discriminator w;
     generator_test := generator_test w; optimizer := optimizer w;
     optimizer_d := optimizer_d w; grad_enabled := grad_enabled w;
     rng := rng w; fs := fs w; calls := l |}.

Definition log (c : Call) (w : World) : World :=
  set_calls (calls w ++ [c]) w.

Definition net_of (n : NetId) (w : World) : option Net :=
  match n with
  | NGenerator => Some (generator w)
  | NGeneratorTest => generator_test w
  | NDiscriminator => Some (discriminator w)
  end.

Definition set_net (n : NetId) (x : Net) (w : World) : World :=
  match n with
  | NGenerator => set_generator x w
  | NGeneratorTest => set_generator_test (Some x) w
  | NDiscriminator => set_discriminator x w
  end.

Definition with_requires_grad (b : bool) (x : Net) : Net :=
  {| params := params x; requires_grad := b; training := training x;
     grad := grad x |}.
Definition with_training (b : bool) (x : Net) : Net :=
  {| params := params x; requires_grad := requires_grad x; training := b;
     grad := grad x |}.
Definition with_grad (g : option (list Qc)) (x : Net) : Net :=
  {| params := params x; requires_grad := requires_grad x;
     training := training x; grad := g |}.
Definition with_params (p : list Qc) (x : Net) : Net :=
  {| params := p; requires_grad := requires_grad x; training := training x;
     grad := grad x |}.

(** *** The monad of the methods *)

Definition M (A : Type) : Type := World → Py.result A * World.

Definition ret {A} (a : A) : M A := λ w, (Py.Ok a, w).
Definition raise {A} (e : Py.exn) : M A := λ w, (Py.Raise e, w).
Definition bind {A B} (m : M A) (k : A → M B) : M B := λ w,
  match m w with
  | (Py.Ok a, w') => k a w'
  | (Py.Raise e, w') => (Py.Raise e, w')
  end.
Definition lift {A} (r : Py.result A) : M A := λ w, (r, w).
Definition get : M World := λ w, (Py.Ok w, w).
Definition modify (f : World → World) : M unit := λ w, (Py.Ok tt, f w).

Global Instance M_ret : MRet M := @ret.
Global Instance M_bind : MBind M := λ A B k m, bind m k.

(** [for x in l: b = f(b, x)] *)
Fixpoint foldM {A B} (f : B → A → M B) (b : B) (l : list A) : M B :=
  match l with
  | [] => ret b
  | x :: l' => b' ← f b x; foldM f b' l'
  end.

(** On a network object [n]. *)
Definition on_net (n : NetId) (f : Net → Net) : M unit := λ w,
  match net_of n w with
  | Some x => (Py.Ok tt, set_net n (f x) w)
  | None => (Py.Raise Py.AttributeError, w)
  end.

(** Modelled from the spec: [toggle_grad] of [im2scene.training] is not
    among the sources; [toggle_grad(module, bool)] freezes or unfreezes
    the parameters of a module, that is, sets whether they require
    gradients. *)
Definition toggle_grad (n : NetId) (b : bool) : M unit :=
  on_net n (with_requires_grad b).

(** [n.train()] and [n.eval()] *)
Definition train (n : NetId) : M unit := on_net n (with_training true).
Definition eval (n : NetId) : M unit := on_net n (with_training false).

(** [with torch.no_grad(): m]; the previous mode comes back on every exit. *)
Definition no_grad {A} (m : M A) : M A := λ w,
  let '(r, w') := m (set_grad_enabled false w) in
  (r, set_grad_enabled (grad_enabled w) w').

(** *** Automatic differentiation

    A tensor that takes part in a graph is the function that recomputes it
    from the leaves of the graph: the parameters of the networks and the
    inputs marked with [requires_grad_()].  An environment overrides some
    leaves; a leaf it leaves out has the value it had when the tensor was
    computed, so [item] is that value whatever happens to the parameters
    afterwards. *)
Inductive Leaf := LNet (n : NetId) | LReal | LRand.

Definition Leaf_eqb (a b : Leaf) : bool :=
  match a, b with
  | LNet n, LNet m => NetId_eqb n m
  | LReal, LReal => true
  | LRand, LRand => true
  | _, _ => false
  end.

Record Env := {
  eNet : NetId → option (list Qc);
  eReal : option Tensor;
  eRand : option Tensor;
}.

Definition here : Env :=
  {| eNet := λ _, None; eReal := None; eRand := None |}.
Definition at_net (n : NetId) (p : list Qc) (e : Env) : Env :=
  {| eNet := λ m, if NetId_eqb m n then Some p else eNet e m;
     eReal := eReal e; eRand := eRand e |}.
Definition at_real (x : Tensor) (e : Env) : Env :=
  {| eNet := eNet e; eReal := Some x; eRand := eRand e |}.
Definition at_rand (x : Tensor) (e : Env) : Env :=
  {| eNet := eNet e; eReal := eReal e; eRand := Some x |}.

Record Var (A : Type) := {
  wrt : Env → A;
  needs : Leaf → bool;   (* the leaves a gradient flows back to *)
}.
Arguments wrt {A} v e.
Arguments needs {A} v l.

Definition item {A} (v : Var A) : A := wrt v here.
Definition const {A} (a : A) : Var A := {| wrt := λ _, a; needs := λ _, false |}.
Definition vmap {A B} (f : A → B) (v : Var A) : Var B :=
  {| wrt := λ e, f (wrt v e); needs := needs v |}.
Definition vadd (a b : Var Qc) : Var Qc :=
  {| wrt := λ e, (wrt a e + wrt b e)%Qc; needs := λ l, needs a l || needs b l |}.
Definition vmul (a b : Var Qc) : Var Qc :=
  {| wrt := λ e, (wrt a e * wrt b e)%Qc; needs := λ l, needs a l || needs b l |}.
Definition tracked {A} (v : Var A) : bool :=
  needs v (LNet NGenerator) || needs v (LNet NGeneratorTest)
  || needs v (LNet NDiscriminator) || needs v LReal || needs v LRand.

(** [x.requires_grad_()] on the real batch ([LReal]) or on the random
    sample ([LRand]): a tensor outside any graph becomes a leaf; on a tensor
    that already requires a gradient the call changes nothing. *)
Definition requires_grad_ (l : Leaf) (x : Var Tensor) : Var Tensor :=
  if tracked x then x
  else
    {| wrt := λ e,
         match l with
         | LReal => default (item x) (eReal e)
         | LRand => default (item x) (eRand e)
         | LNet _ => item x
         end;
       needs := λ l', Leaf_eqb l' l |}.

(** A call of the generator [n]: the result is part of the graph when
    gradient mode is on and the parameters or the input require a
    gradient. *)
Definition call_generator (n : NetId) (x : Var Tensor)
    (latents : option Latents) (mode : GenMode) (need_uv : bool)
  : M (Var GenOut) := λ w,
  match net_of n w with
  | None => (Py.Raise Py.AttributeError, w)
  | Some g =>
    let run := λ e,
      generator_forward (default (params g) (eNet e n)) (training g)
        latents mode need_uv (wrt x e) (rng w) in
    let v :=
      if grad_enabled w && (requires_grad g || tracked x)
      then {| wrt := λ e, (run e).1;
              needs := λ l, needs x l
                            || (Leaf_eqb l (LNet n) && requires_grad g) |}
      else const (run here).1 in
    (Py.Ok v, log (Forward n (grad_enabled w)) (set_rng (run here).2 w))
  end.

(** [gen()] *)
Definition call_sample (n : NetId) : M (Var Tensor) := λ w,
  match net_of n w with
  | None => (Py.Raise Py.AttributeError, w)
  | Some g =>
    let run := λ e,
      generator_sample (default (params g) (eNet e n)) (training g) (rng w) in
    let v :=
      if grad_enabled w && requires_grad g
      then {| wrt := λ e, (run e).1;
              needs := λ l, Leaf_eqb l (LNet n) |}
      else const (run here).1 in
    (Py.Ok v, log (Forward n (grad_enabled w)) (set_rng (run here).2 w))
  end.

(** [generator.module.get_vis_dict(batch_size)] *)
Definition call_get_vis_dict (batch_size : nat) : M Latents := λ w,
  let lr := get_vis_dict batch_size (rng w) in
  (Py.Ok lr.1, set_rng lr.2 w).

(** [discriminator(x)] *)
Definition call_discriminator (n : NetId) (x : Var Tensor)
  : M (Var (list Qc)) := λ w,
  match net_of n w with
  | None => (Py.Raise Py.AttributeError, w)
  | Some d =>
    let run := λ e,
      discriminator_forward (default (params d) (eNet e n)) (training d)
        (wrt x e) in
    let v :=
      if grad_enabled w && (requires_grad d || tracked x)
      then {| wrt := run;
              needs := λ l, needs x l
                            || (Leaf_eqb l (LNet n) && requires_grad d) |}
      else const (run here) in
    (Py.Ok v, log (Forward n (grad_enabled w)) w)
  end.

(** [compute_bce(d_out, target)] *)
Definition compute_bce (d_out : Var (list Qc)) (target : Qc) : Var Qc :=
  vmap (λ s, bce s target) d_out.

(** Modelled from the spec: [compute_grad2] of [im2scene.training] is not
    among the sources; [compute_grad2(scores, inputs)] is the per-sample
    squared norm of the gradient of the scores with respect to the inputs.
    The gradient is that of the sum of the scores, and stays in the graph. *)
Definition compute_grad2 (d_out : Var (list Qc)) (x_in : Var Tensor)
  : M (Var (list Qc)) :=
  if needs x_in LReal then
    ret {| wrt := λ e,
             sq_norm <$> input_grad (λ x, Torch.sum (wrt d_out (at_real x e)))
                           (wrt x_in e);
           needs := needs d_out |}
  else if needs x_in LRand then
    ret {| wrt := λ e,
             sq_norm <$> input_grad (λ x, Torch.sum (wrt d_out (at_rand x e)))
                           (wrt x_in e);
           needs := needs d_out |}
  else raise Py.RuntimeError.

(** [p.grad] after one more backward pass. *)
Definition accumulate (g0 : option (list Qc)) (g : list Qc) : option (list Qc) :=
  match g0 with
  | None => Some g
  | Some a => Some (zip_with Qcplus a g)
  end.

Definition backward_net (loss : Var Qc) (n : NetId) (w : World) : World :=
  match net_of n w with
  | Some x =>
    if needs loss (LNet n)
    then set_net n
           (with_grad
              (accumulate (grad x)
                 (param_grad (λ p, wrt loss (at_net n p here)) (params x))) x) w
    else w
  | None => w
  end.

(** [loss.backward()]: every network the loss needs gets its gradient
    added to [.grad]; the gradients of input leaves are dropped with the
    inputs. *)
Definition backward (loss : Var Qc) : M unit := λ w,
  if tracked loss then
    (Py.Ok tt,
     log (Backward (item loss))
       (backward_net loss NDiscriminator
          (backward_net loss NGeneratorTest
             (backward_net loss NGenerator w))))
  else (Py.Raise Py.RuntimeError, w).

(** [self.optimizer.zero_grad()] and [self.optimizer.step()] *)
Definition optimizer_zero_grad : M unit :=
  modify (λ w, set_generator (with_grad None (generator w)) w).

Definition optimizer_step : M unit := λ w,
  (Py.Ok tt,
   log (Step NGenerator)
     match grad (generator w) with
     | Some g =>
       let st := opt_step (optimizer w) (params (generator w)) g in
       set_optimizer st.1 (set_generator (with_params st.2 (generator w)) w)
     | None => w
     end).

(** [self.optimizer_d.zero_grad()] and [self.optimizer_d.step()] *)
Definition optimizer_d_zero_grad : M unit :=
  modify (λ w, set_discriminator (with_grad None (discriminator w)) w).

Definition optimizer_d_step : M unit := λ w,
  (Py.Ok tt,
   log (Step NDiscriminator)
     match grad (discriminator w) with
     | Some g =>
       let st := opt_step (optimizer_d w) (params (discriminator w)) g in
       set_optimizer_d st.1
         (set_discriminator (with_params st.2 (discriminator w)) w)
     | None => w
     end).

(** Modelled from the spec: [update_average] of [im2scene.training] is not
    among the sources; [update_average(target_module, source_module, beta)]
    replaces each parameter of the target by [beta] times itself plus
    [1 - beta] times the parameter of the source ([0.999] and [0.001] for
    the decay of the trainer), without gradient tracking. *)
Definition update_average (tgt src : NetId) (beta : Qc) : M unit := λ w,
  match net_of tgt w, net_of src w with
  | Some t, Some s =>
    (Py.Ok tt,
     log UpdateAverage
       (set_net tgt
          (with_params
             (zip_with (λ p_tgt p_src, (beta * p_tgt + (1 - beta) * p_src)%Qc)
                (params t) (params s)) t) w))
  | _, _ => (Py.Raise Py.AttributeError, w)
  end.

(** [data.get('image').to(self.device)] *)
Definition get_image (data : gmap string Tensor) : M (Var Tensor) :=
  match data !! "image" with
  | Some x => ret (const x)
  | None => raise Py.AttributeError
  end.

(** [self.recon_loss(x_fake, x_real) * self.recon_weight]; a weight left
    at [None] cannot be multiplied. *)
Definition recon_loss (self : Trainer) (x_fake x_real : Var Tensor)
  : M (Var Qc) :=
  let mse := {| wrt := λ e, MSELoss (wrt x_fake e) (wrt x_real e);
                needs := λ l, needs x_fake l || needs x_real l |} in
  match recon_weight self with
  | Some wt => ret (vmul mse (const wt))
  | None => raise Py.TypeError
  end.

(** ** The trainer *)

Definition train_step_generator (self : Trainer) (data : gmap string Tensor)
    (it : option Z) : M (Qc * Qc * Qc) :=
  let generator := NGenerator in
  let discriminator := NDiscriminator in
  toggle_grad generator true;;
  toggle_grad discriminator false;;
  train generator;;
  train discriminator;;
  optimizer_zero_grad;;
  x_real ← get_image data;
  out ← (if multi_gpu self then
           latents ← call_get_vis_dict (length (item x_real));
           call_generator generator x_real (Some latents) ModeTraining false
         else call_generator generator x_real None ModeTraining false);
  let x_fake := vmap fake out in
  let x_rand := vmap rand out in
  d_fake ← call_discriminator discriminator x_fake;
  d_rand ← call_discriminator discriminator x_rand;
  let gloss_rand := compute_bce d_rand 1 in
  loss_recon ← recon_loss self x_fake x_real;
  let gen_loss := vadd gloss_rand loss_recon in
  backward gen_loss;;
  optimizer_step;;
  w ← get;
  (if generator_test w is Some _
   then update_average NGeneratorTest generator (Q2Qc 0.999)
   else ret tt);;
  ret (item gen_loss, item loss_recon, item gloss_rand).

Definition train_step_discriminator (self : Trainer)
    (data : gmap string Tensor) (it : option Z) : M (Qc * Qc * Qc * Qc) :=
  let generator := NGenerator in
  let discriminator := NDiscriminator in
  toggle_grad generator false;;
  toggle_grad discriminator true;;
  train generator;;
  train discriminator;;
  optimizer_d_zero_grad;;
  x_real ← get_image data;
  let loss_d_full := const 0%Qc in
  let x_real := requires_grad_ LReal x_real in
  d_real ← call_discriminator discriminator x_real;
  let d_loss_real := compute_bce d_real 1 in
  let loss_d_full := vadd loss_d_full d_loss_real in
  grad2 ← compute_grad2 d_real x_real;
  let reg := vmul (const (Qc_of_Z 10)) (vmap mean grad2) in
  let loss_d_full := vadd loss_d_full reg in
  x_rand ← no_grad
    (out ← (if multi_gpu self then
              latents ← call_get_vis_dict (length (item x_real));
              call_generator generator x_real (Some latents) ModeTraining false
            else call_generator generator x_real None ModeTraining false);
     ret (vmap rand out));
  let x_rand := requires_grad_ LRand x_rand in
  d_rand ← call_discriminator discriminator x_rand;
  let d_loss_rand := compute_bce d_rand 0 in
  let loss_d_full := vadd loss_d_full d_loss_rand in
  backward loss_d_full;;
  optimizer_d_step;;
  let d_loss := vadd d_loss_real d_loss_rand in
  ret (item d_loss, item reg, item d_loss_real, item d_loss_rand).

Definition train_step (self : Trainer) (data : gmap string Tensor)
    (it : option Z) : M (gmap string Qc) :=
  r_gen ← train_step_generator self data it;
  let '(loss_gen, loss_recon, loss_g_rand) := r_gen in
  r_dis ← train_step_discriminator self data it;
  let '(loss_d, reg_d, real_d, rand_d) := r_dis in
  ret (<["generator_total" := loss_gen]>
       (<["generator_random" := loss_g_rand]>
       (<["recon" := loss_recon]>
       (<["discriminator" := loss_d]>
       (<["regularizer" := reg_d]>
       (<["real_d" := real_d]>
       (<["rand_d" := rand_d]> ∅))))))).

(** [gen = self.model.generator_test; if gen is None: gen = self.model.generator] *)
Definition select_gen : M NetId :=
  w ← get;
  ret (if generator_test w is Some _ then NGeneratorTest else NGenerator).

(** The body of the loop of [eval_step]:
    [with torch.no_grad(): x_fake.append(gen().cpu()[:, :3])] *)
Definition eval_step_body (gen : NetId) (x_fake : list Tensor) (i : nat)
  : M (list Tensor) :=
  x ← no_grad (call_sample gen);
  ret (x_fake ++ [channels 3 (item x)]).

Definition eval_step (self : Trainer) : M (gmap string Qc) :=
  gen ← select_gen;
  eval gen;;
  let x_fake : list Tensor := [] in
  let n_iter := n_eval_iterations self in
  x_fake ← foldM (eval_step_body gen) x_fake (seq 0 n_iter);
  x_fake ← lift (cat x_fake);
  let x_fake := clamp 0 1 x_fake in
  let mu_sigma := calculate_activation_statistics x_fake in
  let mu := mu_sigma.1 in
  let sigma := mu_sigma.2 in
  m ← (if fid_dict self !! "m" is Some m then ret m else raise (Py.KeyError "m"));
  s ← (if fid_dict self !! "s" is Some s then ret s else raise (Py.KeyError "s"));
  let fid_score := calculate_frechet_distance mu sigma m s (Q2Qc 0.0001) in
  ret (<["fid_score" := fid_score]> ∅).

(** [name_dict = {0: 'pred', 1: 'swap', 2: 'rand'}] *)
Definition name_dict : gmap nat string :=
  <[0%nat := "pred"]> (<[1%nat := "swap"]> (<[2%nat := "rand"]> ∅)).

(** [out]: the pairs [(line[2*idx], line[2*idx+1])] for [idx] below
    [len(line) // 2]. *)
Fixpoint pairs (line : list Qc) : list (Qc * Qc) :=
  match line with
  | u :: v :: rest => (u, v) :: pairs rest
  | _ => []
  end.

(** One line of [uv.txt].  The values of [line] are rounded to three
    places by [Py.repr_pairs 3] as they are printed: the rounded float
    keeps the sign of the value, which the exact rational would lose at
    zero. *)
Definition txt_line (it : Z) (name : string) (uv_i : list (list Qc)) : string :=
  let line := concat uv_i in
  let out := pairs line in
  Py.str_int it +:+ "th " +:+ name +:+ "-uv : " +:+ Py.repr_pairs 3 out
  +:+ Py.nl.

(** The body of the loop of [record_uvs]. *)
Definition record_uvs_body (uv : list (list (list Qc))) (out_path : string)
    (it : Z) (_ : unit) (i : nat) : M unit :=
  uv_i ← (if uv !! i is Some a then ret a else raise Py.IndexError);
  name ← (if name_dict !! i is Some s then ret s
          else raise (Py.KeyError (pretty i)));
  modify (λ w, set_fs (Py.write out_path (txt_line it name uv_i) (fs w)) w).

Definition record_uvs (uv : list (list (list Qc))) (path : string) (it : Z)
  : M unit :=
  let out_path := Py.path_join path "uv.txt" in
  w ← get;
  (if negb (Py.exists_ out_path (fs w))
   then modify (λ w, set_fs (Py.open_w out_path (fs w)) w)
   else modify (λ w, set_fs (Py.open_a out_path (fs w)) w));;
  foldM (record_uvs_body uv out_path it) tt (seq 0 (length uv));;
  modify (λ w, set_fs (Py.write out_path Py.nl (fs w)) w).

(** [save_image(image_grid, path)] *)
Definition save_image (image_grid : Image) (path : string) : M unit :=
  modify (λ w, log (SaveImage path)
                 (set_fs (<[path := png_encode image_grid]> (fs w)) w)).

(** [os.path.join(d, name)] and [os.path.join(d)] for a directory that
    may be [None]. *)
Definition join_dir (d : option string) (name : string) : M string :=
  match d with
  | Some d => ret (Py.path_join d name)
  | None => raise Py.TypeError
  end.

Definition join_one (d : option string) : M string :=
  match d with
  | Some d => ret d
  | None => raise Py.TypeError
  end.

(** The loop of [visualize] over the batch: the sums of the PSNR and SSIM
    of each real image against its reconstruction, channels last. *)
Definition sum_metrics_body (x_real image_fake : Tensor) (acc : Qc * Qc)
    (idx : nat) : M (Qc * Qc) :=
  let '(psnr, ssim) := acc in
  a ← (if x_real !! idx is Some a then ret a else raise Py.IndexError);
  b ← (if image_fake !! idx is Some b then ret b else raise Py.IndexError);
  let x_real_idx := transpose_hwc a in
  let image_fake_idx := transpose_hwc b in
  ret ((psnr + compare_psnr x_real_idx image_fake_idx)%Qc,
       (ssim + compare_ssim x_real_idx image_fake_idx)%Qc).

Definition sum_metrics (x_real image_fake : Tensor) : M (Qc * Qc) :=
  foldM (sum_metrics_body x_real image_fake) (0%Qc, 0%Qc)
    (seq 0 (length x_real)).

(** [psnr / len(x_real)] *)
Definition py_div (a : Qc) (n : nat) : M Qc :=
  if bool_decide (n = 0%nat) then raise Py.ZeroDivisionError
  else ret (a / Qc_of_Z (Z.of_nat n))%Qc.

(** The end of [visualize], from [make_grid] on. *)
Definition save_grid (self : Trainer) (mode : option string) (it : Z)
    (x_real : Tensor) (out : GenOut) (out_file_name : string)
    (psnr ssim : option Qc) : M (option Image * option Qc * option Qc) :=
  let image_grid :=
    make_grid (x_real ++ clamp 0 1 (fake out) ++ clamp 0 1 (swap out)
               ++ clamp 0 1 (rand out))
      (length (fake out)) in
  (if bool_decide (mode = Some "val") then
     p ← join_dir (val_vis_dir self) out_file_name;
     save_image image_grid p;;
     d ← join_one (val_vis_dir self);
     record_uvs (uvs out) d it
   else
     p ← join_dir (vis_dir self) out_file_name;
     save_image image_grid p;;
     d ← join_one (vis_dir self);
     record_uvs (uvs out) d it);;
  ret (Some image_grid, psnr, ssim).

Definition visualize (self : Trainer) (data : gmap string Tensor) (it : Z)
    (mode : option string) (val_idx : option bool)
  : M (option Image * option Qc * option Qc) :=
  gen ← select_gen;
  eval gen;;
  r ← no_grad
    (x_real ← get_image data;
     out ← call_generator NGenerator x_real None ModeVal true;
     ret (item x_real, item out));
  let '(x_real, out) := r in
  if bool_decide (mode = Some "val") then
    sums ← sum_metrics x_real (fake out);
    psnr ← py_div sums.1 (length x_real);
    ssim ← py_div sums.2 (length x_real);
    if bool_decide (val_idx = Some true) then
      let out_file_name :=
        "visualization_" +:+ Py.str_int it +:+ "_evaluation_P"
        +:+ Py.repr_round psnr 2 +:+ "_S" +:+ Py.repr_round ssim 2 +:+ ".png" in
      save_grid self mode it x_real out out_file_name (Some psnr) (Some ssim)
    else ret (None, Some psnr, Some ssim)
  else
    let out_file_name := "visualization_" +:+ Py.fmt_010d it +:+ ".png" in
    save_grid self mode it x_real out out_file_name None None.

(** ** Vocabulary of the properties *)

(** The generator step with the call [d_fake = discriminator(x_fake)] taken
    out, and nothing else changed. *)
Definition train_step_generator_without_d_fake (self : Trainer)
    (data : gmap string Tensor) (it : option Z) : M (Qc * Qc * Qc) :=
  let generator := NGenerator in
  let discriminator := NDiscriminator in
  toggle_grad generator true;;
  toggle_grad discriminator false;;
  train generator;;
  train discriminator;;
  optimizer_zero_grad;;
  x_real ← get_image data;
  out ← (if multi_gpu self then
           latents ← call_get_vis_dict (length (item x_real));
           call_generator generator x_real (Some latents) ModeTraining false
         else call_generator generator x_real None ModeTraining false);
  let x_fake := vmap fake out in
  let x_rand := vmap rand out in
  d_rand ← call_discriminator discriminator x_rand;
  let gloss_rand := compute_bce d_rand 1 in
  loss_recon ← recon_loss self x_fake x_real;
  let gen_loss := vadd gloss_rand loss_recon in
  backward gen_loss;;
  optimizer_step;;
  w ← get;
  (if generator_test w is Some _
   then update_average NGeneratorTest generator (Q2Qc 0.999)
   else ret tt);;
  ret (item gen_loss, item loss_recon, item gloss_rand).

(** What [generator(x_real)] of a training step returns on parameters [p]
    from the random state [r], with the latents of [get_vis_dict] drawn
    first on several devices. *)
Definition run_generator (self : Trainer) (p : list Qc) (x : Tensor) (r : Rng)
  : GenOut * Rng :=
  if multi_gpu self then
    let lr := get_vis_dict (length x) r in
    generator_forward p true (Some lr.1) ModeTraining false x lr.2
  else generator_forward p true None ModeTraining false x r.

(** The losses of the generator step as functions of the generator's
    parameters [p], in world [w] on the real batch [x]. *)
Definition gloss_rand_at (self : Trainer) (w : World) (x : Tensor)
    (p : list Qc) : Qc :=
  bce (discriminator_forward (params (discriminator w)) true
         (rand (run_generator self p x (rng w)).1)) 1.

Definition mse_at (self : Trainer) (w : World) (x : Tensor) (p : list Qc) : Qc :=
  MSELoss (fake (run_generator self p x (rng w)).1) x.

(** The losses of the discriminator step as functions of the
    discriminator's parameters [p], on the real batch [x] and the random
    sample [x_rand]. *)
Definition d_loss_real_at (x : Tensor) (p : list Qc) : Qc :=
  bce (discriminator_forward p true x) 1.

Definition d_loss_rand_at (x_rand : Tensor) (p : list Qc) : Qc :=
  bce (discriminator_forward p true x_rand) 0.

(** The gradient of the summed scores of the real batch with respect to
    that batch, and the penalty made of it. *)
Definition score_gradient (x : Tensor) (p : list Qc) : Tensor :=
  input_grad (λ x', Torch.sum (discriminator_forward p true x')) x.

Definition reg_at (x : Tensor) (p : list Qc) : Qc :=
  (Qc_of_Z 10 * mean (sq_norm <$> score_gradient x p))%Qc.

(** The loss the generator step differentiates. *)
Definition generator_loss_at (self : Trainer) (w : World) (x : Tensor)
    (wt : Qc) (p : list Qc) : Qc :=
  (gloss_rand_at self w x p + mse_at self w x p * wt)%Qc.

(** The loss the discriminator step differentiates: [loss_d_full] starts
    at [0.] and receives the three terms in turn. *)
Definition discriminator_loss_at (x x_rand : Tensor) (p : list Qc) : Qc :=
  (0 + d_loss_real_at x p + reg_at x p + d_loss_rand_at x_rand p)%Qc.

(** The moving average of two parameter vectors. *)
Definition ema (beta : Qc) (p_tgt p_src : list Qc) : list Qc :=
  zip_with (λ t s, (beta * t + (1 - beta) * s)%Qc) p_tgt p_src.

(** The world a successful generator step leaves, in closed form. *)
Definition after_generator_step (self : Trainer) (w : World) (x : Tensor)
    (wt : Qc) : World :=
  let p := params (generator w) in
  let g := param_grad (generator_loss_at self w x wt) p in
  let st := opt_step (optimizer w) p g in
  {| generator :=
       {| params := st.2; requires_grad := true; training := true;
          grad := Some g |};
     discriminator :=
       {| params := params (discriminator w); requires_grad := false;
          training := true; grad := grad (discriminator w) |};
     generator_test :=
       (λ t, with_params (ema (Q2Qc 0.999) (params t) st.2) t)
         <$> generator_test w;
     optimizer := st.1;
     optimizer_d := optimizer_d w;
     grad_enabled := true;
     rng := (run_generator self p x (rng w)).2;
     fs := fs w;
     calls := calls w
       ++ [Forward NGenerator true; Forward NDiscriminator true;
           Forward NDiscriminator true;
           Backward (generator_loss_at self w x wt p); Step NGenerator]
       ++ (if generator_test w is Some _ then [UpdateAverage] else []) |}.

(** The world a successful discriminator step leaves, in closed form. *)
Definition after_discriminator_step (self : Trainer) (w : World) (x : Tensor)
  : World :=
  let p := params (discriminator w) in
  let out := run_generator self (params (generator w)) x (rng w) in
  let g := param_grad (discriminator_loss_at x (rand out.1)) p in
  let st := opt_step (optimizer_d w) p g in
  {| generator :=
       {| params := params (generator w); requires_grad := false;
          training := true; grad := grad (generator w) |};
     discriminator :=
       {| params := st.2; requires_grad := true; training := true;
          grad := Some g |};
     generator_test := generator_test w;
     optimizer := optimizer w;
     optimizer_d := st.1;
     grad_enabled := true;
     rng := out.2;
     fs := fs w;
     calls := calls w
       ++ [Forward NDiscriminator true; Forward NGenerator false;
           Forward NDiscriminator true;
           Backward (discriminator_loss_at x (rand out.1) p);
           Step NDiscriminator] |}.

(** A call of the discriminator in the log. *)
Definition is_discriminator_forward (c : Call) : bool :=
  match c with
  | Forward NDiscriminator _ => true
  | _ => false
  end.

(** The dictionary [train_step] returns. *)
Definition metrics (loss_gen loss_g_rand loss_recon loss_d reg_d real_d rand_d
    : Qc) : gmap string Qc :=
  <["generator_total" := loss_gen]>
  (<["generator_random" := loss_g_rand]>
  (<["recon" := loss_recon]>
  (<["discriminator" := loss_d]>
  (<["regularizer" := reg_d]>
  (<["real_d" := real_d]>
  (<["rand_d" := rand_d]> ∅)))))).

(** The generator [visualize] calls, with the [training] flag it has when
    called: [gen.eval()] reaches it only when there is no averaged
    generator. *)
Definition visualize_out (w : World) (x : Tensor) : GenOut :=
  (generator_forward (params (generator w))
     (if generator_test w is Some _ then training (generator w) else false)
     None ModeVal true x (rng w)).1.

(** The grid [visualize] builds from the real batch and a generator output:
    real, reconstruction, swap and random images, the generated ones
    clamped, one row per kind. *)
Definition grid_of (x : Tensor) (out : GenOut) : Image :=
  make_grid (x ++ clamp 0 1 (fake out) ++ clamp 0 1 (swap out)
             ++ clamp 0 1 (rand out))
    (length (fake out)).

(** The batches [eval_step] draws: [k] calls of [gen()] on parameters [p]
    in evaluation mode, each keeping its first three channels. *)
Fixpoint eval_samples (p : list Qc) (k : nat) (r : Rng) : list Tensor * Rng :=
  match k with
  | O => ([], r)
  | S k' =>
    let xr := generator_sample p false r in
    let rest := eval_samples p k' xr.2 in
    (channels 3 xr.1 :: rest.1, rest.2)
  end.

(** What one call of [record_uvs] adds to [uv.txt]. *)
Definition uv_text (it : Z) (uv : list (list (list Qc))) : string :=
  String.concat "" (zip_with (txt_line it) ["pred"; "swap"; "rand"] uv)
  +:+ Py.nl.

(** The mean over the batch of a metric between each real image and its
    reconstruction, channels last. *)
Definition batch_mean (metric : Image → Image → Qc) (x_real x_fake : Tensor)
  : Qc :=
  (Torch.sum (zip_with (λ a b, metric (transpose_hwc a) (transpose_hwc b))
                x_real x_fake)
   / Qc_of_Z (Z.of_nat (length x_real)))%Qc.

End WithFramework.

(** ** A small instance

    Networks of one or two parameters on which the methods can be run:
    the reconstruction scales the input by the sum of the generator's
    parameters, the random sample is a constant image, the discriminator
    scores an image by its pixel sum, and the optimizer is plain gradient
    descent with step one. *)

Module Toy.

Definition scale (c : Qc) (x : Tensor) : Tensor :=
  map (map (map (map (λ v, (v * c)%Qc)))) x.
Definition fill (c : Qc) (x : Tensor) : Tensor :=
  map (map (map (map (λ _ : Qc, c)))) x.

Definition g_forward (p : list Qc) (tr : bool) (lat : option nat)
    (mode : GenMode) (need_uv : bool) (x : Tensor) (r : nat) : GenOut * nat :=
  let g := Torch.sum p in
  ({| fake := scale g x;
      swap := x;
      rand := fill (g + Qc_of_Z (Z.of_nat r))%Qc x;
      uvs := if need_uv
             then [[[g; Q2Qc 0.5]]; [[Q2Qc 0.12345; Q2Qc (-0.0004)]];
                   [[Q2Qc 0.25; 1%Qc; g]]]
             else [] |}, S r).

Definition g_sample (p : list Qc) (tr : bool) (r : nat) : Tensor * nat :=
  let g := (Torch.sum p + Qc_of_Z (Z.of_nat r))%Qc in
  ([[[[g]]; [[g + g]]; [[g * g]]; [[1]]]]%Qc, S r).

Definition d_forward (p : list Qc) (tr : bool) (x : Tensor)
  : list Qc :=
  (λ img, (Torch.sum p * Torch.sum (flatten_image img))%Qc) <$> x.

Definition sq_err (s : list Qc) (t : Qc) : Qc :=
  Torch.sum ((λ v, ((v - t) * (v - t))%Qc) <$> s).

(** Forward differences with step one. *)
Definition diff_params (f : list Qc → Qc) (p : list Qc) : list Qc :=
  imap (λ i v, (f (<[i := (v + 1)%Qc]> p) - f p)%Qc) p.

Definition diff_input (f : Tensor → Qc) (x : Tensor) : Tensor :=
  fill (f (fill 1%Qc x) - f (fill 0%Qc x))%Qc x.

Definition sgd_step (n : nat) (p g : list Qc) : nat * list Qc :=
  (S n, zip_with Qcminus p g).

Definition stats (x : Tensor) : Qc * Qc :=
  (Torch.sum (flatten x), Qc_of_Z (Z.of_nat (length x))).

Definition frechet (mu sigma m s eps : Qc) : Qc :=
  ((mu - m) * (mu - m) + (sigma - s) * (sigma - s) + eps)%Qc.

Definition grid (x : Tensor) (nrow : nat) : Image := concat x.

Definition png (i : Image) : string :=
  "PNG" +:+ pretty (length (flatten_image i)).

Definition psnr (a b : Image) : Qc :=
  (Qc_of_Z 30 - MSELoss [a] [b])%Qc.
Definition ssim (a b : Image) : Qc :=
  (1 - MSELoss [a] [b])%Qc.

Definition framework : Framework :=
  {| Rng := nat; Latents := nat; OptState := nat; Array := Qc;
     generator_forward := g_forward;
     generator_sample := g_sample;
     get_vis_dict := λ n r, (n, S r);
     discriminator_forward := d_forward;
     bce := sq_err;
     param_grad := diff_params;
     input_grad := diff_input;
     opt_step := sgd_step;
     calculate_activation_statistics := stats;
     calculate_frechet_distance := frechet;
     make_grid := grid;
     png_encode := png;
     compare_psnr := psnr;
     compare_ssim := ssim |}.

Definition net (p : list Qc) : Net :=
  {| params := p; requires_grad := true; training := true; grad := None |}.

(** A fresh trainer world, with or without an averaged generator. *)
Definition world (ema : option (list Qc)) : @World framework :=
  @Build_World framework
    (net [1; Q2Qc 0.5]%Qc)     (* generator *)
    (net [Q2Qc 0.25])          (* discriminator *)
    (net <$> ema)              (* generator_test *)
    0%nat 0%nat                (* optimizer, optimizer_d *)
    true                       (* grad_enabled *)
    0%nat                      (* rng *)
    ∅ [].                      (* fs, calls *)

Definition trainer (k : nat) : @Trainer framework :=
  @Build_Trainer framework
    (Some "out/vis") (Some "out/val")   (* vis_dir, val_vis_dir *)
    false                               (* multi_gpu *)
    (<["m" := 1%Qc]> (<["s" := 2%Qc]> ∅))
    k                                   (* n_eval_iterations *)
    (Some 2%Qc).                        (* recon_weight *)

(** A batch of two images of one channel and two pixels. *)
Definition image : Tensor := [[[[1; Q2Qc 0.5]]]; [[[0; Q2Qc 0.25]]]]%Qc.

Definition batch : gmap string Tensor := <["image" := image]> ∅.

(** The parameters of an averaged generator. *)
Definition averaged : list Qc := [Qc_of_Z 3; Qc_of_Z 4].

(** The world between the two halves of a training step, and the loss the
    discriminator half hands to [backward] there. *)
Definition world_1 : @World framework :=
  (train_step_generator (trainer 1) batch None (world None)).2.

Definition total_discriminator_loss : Qc :=
  discriminator_loss_at (F := framework) image
    (rand (run_generator (trainer 1) (params (generator world_1)) image
             (rng world_1)).1)
    (params (discriminator world_1)).

End Toy.


(** ** Further vocabulary *)

Section MoreVocabulary.
Context `{F : Framework}.

(** A network with other flags and another accumulated gradient, on the
    same parameters. *)
Definition with_flags (rg tr : bool) (g : option (list Qc)) (x : Net) : Net :=
  {| params := params x; requires_grad := rg; training := tr; grad := g |}.

(** The generator [eval_step] and [visualize] select. *)
Definition selected (w : World) : NetId :=
  if generator_test w is Some _ then NGeneratorTest else NGenerator.

(** The world after [gen.eval()] on the selected generator. *)
Definition selected_in_eval_mode (w : World) : World :=
  match generator_test w with
  | Some t => set_generator_test (Some (with_training false t)) w
  | None => set_generator (with_training false (generator w)) w
  end.

(** The world [eval_step] leaves, whether it returns or raises. *)
Definition after_eval_step (self : Trainer) (w : World) : World :=
  let p := params (default (generator w) (generator_test w)) in
  let k := n_eval_iterations self in
  set_calls (calls w ++ replicate k (Forward (selected w) false))
    (set_rng (eval_samples p k (rng w)).2 (selected_in_eval_mode w)).

(** The worlds that differ from [w] in their files only. *)
Definition files_only (w w' : World) : Prop := w' = set_fs (fs w') w.

(** The worlds that differ from [w] in their files, their call log and
    their random state only. *)
Definition outputs_only (w w' : World) : Prop :=
  w' = set_fs (fs w') (set_calls (calls w') (set_rng (rng w') w)).

(** The file a call of [visualize] outside validation mode writes its
    grid to. *)
Definition snapshot_path (d : string) (it : Z) : string :=
  Py.path_join d ("visualization_" +:+ Py.fmt_010d it +:+ ".png").

End MoreVocabulary.

(** ** A trainer left at its defaults

    The small networks with a trainer built with the defaults of
    [__init__]: no output directory, no FID statistics, ten evaluation
    iterations and no reconstruction weight. *)
Definition default_trainer : @Trainer Toy.framework :=
  @Build_Trainer Toy.framework None None false ∅ 10%nat None.

(** A batch without an image, an empty batch, and four UV arrays. *)
Definition no_image : gmap string Tensor := ∅.
Definition empty_batch : gmap string Tensor := <["image" := []]> ∅.
Definition four_uvs : list (list (list Qc)) :=
  [[[1; 2]]; [[Q2Qc 0.5; 0]]; [[0; 1]]; [[1; 1]]]%Qc.

(** * Properties *)

(** Symbolic execution of a method on a world given by its fields. *)
Ltac exec :=
  cbv beta iota zeta delta
    [mbind mret M_bind M_ret bind ret raise get modify lift
     toggle_grad train eval on_net net_of set_net
     set_generator set_discriminator set_generator_test set_optimizer
     set_optimizer_d set_grad_enabled set_rng set_fs set_calls log
     generator discriminator generator_test optimizer optimizer_d
     grad_enabled rng fs calls
     params requires_grad training grad
     with_requires_grad with_training with_grad with_params
     vis_dir val_vis_dir multi_gpu fid_dict n_eval_iterations recon_weight
     no_grad here at_net at_real at_rand eNet eReal eRand
     wrt needs item const vmap vadd vmul tracked requires_grad_
     call_generator call_sample call_get_vis_dict call_discriminator
     compute_bce compute_grad2 accumulate backward_net backward
     optimizer_zero_grad optimizer_step optimizer_d_zero_grad
     optimizer_d_step update_average get_image recon_loss select_gen
     NetId_eqb Leaf_eqb default from_option id orb andb negb fst snd
     option_fmap option_map fmap].

Section Steps.
Context `{F : Framework}.

(** The generator step in closed form. *)
Lemma train_step_generator_run self data it w x wt :
  data !! "image" = Some x →
  recon_weight self = Some wt →
  grad_enabled w = true →
  train_step_generator self data it w =
  (Py.Ok (generator_loss_at self w x wt (params (generator w)),
          (mse_at self w x (params (generator w)) * wt)%Qc,
          gloss_rand_at self w x (params (generator w))),
   after_generator_step self w x wt).
Proof.
  intros Hx Hw Hg.
  unfold train_step_generator, after_generator_step, generator_loss_at,
    gloss_rand_at, mse_at, run_generator, get_image.
  rewrite Hx. clear Hx.
  destruct self as [vd vvd mg fd k rw].
  destruct w as [[pg rg tg gg] [pd rd td gd] T og od ge r f c].
  cbv [recon_weight grad_enabled] in Hw, Hg. subst rw ge.
  destruct T as [t|]; destruct mg; exec; rewrite <- ?app_assoc; reflexivity.
Qed.

(** The discriminator step in closed form. *)
Lemma train_step_discriminator_run self data it w x :
  data !! "image" = Some x →
  grad_enabled w = true →
  let p := params (discriminator w) in
  let x_rand := rand (run_generator self (params (generator w)) x (rng w)).1 in
  train_step_discriminator self data it w =
  (Py.Ok ((d_loss_real_at x p + d_loss_rand_at x_rand p)%Qc,
          reg_at x p, d_loss_real_at x p, d_loss_rand_at x_rand p),
   after_discriminator_step self w x).
Proof.
  intros Hx Hg p x_rand. subst p x_rand.
  unfold train_step_discriminator, after_discriminator_step,
    discriminator_loss_at, d_loss_real_at, d_loss_rand_at, reg_at,
    score_gradient, run_generator, get_image.
  rewrite Hx. clear Hx.
  destruct self as [vd vvd mg fd k rw].
  destruct w as [[pg rg tg gg] [pd rd td gd] T og od ge r f c].
  cbv [grad_enabled] in Hg. subst ge.
  destruct T as [t|]; destruct mg; exec; rewrite <- ?app_assoc; reflexivity.
Qed.

End Steps.

(** ** The training steps *)

Section Training.
Context `{F : Framework}.

(** C2.  On a batch with an image, with a reconstruction weight and with
    gradient mode on, the generator step returns the triple (total loss,
    reconstruction loss, random-branch adversarial loss), where the
    adversarial loss is that of the discriminator's score of the random
    sample against label 1, the reconstruction loss is the weight times
    the mean squared error between [x_fake] and the real batch, and the
    total is their sum.  The total is the loss handed to [backward], and
    the generator's parameters are updated by the optimizer from the
    gradient of this total as a function of the parameters. *)
Theorem train_step_generator_total_loss self data it w x wt :
  data !! "image" = Some x →
  recon_weight self = Some wt →
  grad_enabled w = true →
  let p := params (generator w) in
  let out := (run_generator self p x (rng w)).1 in
  let adv :=
    bce (discriminator_forward (params (discriminator w)) true (rand out)) 1 in
  let recon := (wt * MSELoss (fake out) x)%Qc in
  let r := train_step_generator self data it w in
  r.1 = Py.Ok ((adv + recon)%Qc, recon, adv)
  ∧ calls r.2 =
      calls w
      ++ [Forward NGenerator true; Forward NDiscriminator true;
          Forward NDiscriminator true; Backward (adv + recon)%Qc;
          Step NGenerator]
      ++ (if generator_test w is Some _ then [UpdateAverage] else [])
  ∧ grad (generator r.2) = Some (param_grad (generator_loss_at self w x wt) p)
  ∧ params (generator r.2) =
      (opt_step (optimizer w) p
         (param_grad (generator_loss_at self w x wt) p)).2
  ∧ ∀ q,
      generator_loss_at self w x wt q =
      (bce (discriminator_forward (params (discriminator w)) true
              (rand (run_generator self q x (rng w)).1)) 1
       + wt * MSELoss (fake (run_generator self q x (rng w)).1) x)%Qc.
Proof.
  intros Hx Hw Hg p out adv recon r. subst r.
  rewrite (train_step_generator_run self data it w x wt Hx Hw Hg).
  assert (Hl : ∀ q,
    generator_loss_at self w x wt q =
    (bce (discriminator_forward (params (discriminator w)) true
            (rand (run_generator self q x (rng w)).1)) 1
     + wt * MSELoss (fake (run_generator self q x (rng w)).1) x)%Qc).
  { intros q. unfold generator_loss_at, gloss_rand_at, mse_at.
    f_equal. apply Qcmult_comm. }
  cbn [fst snd after_generator_step generator calls grad params].
  rewrite Hl. unfold mse_at, gloss_rand_at. fold p. fold out. fold adv.
  rewrite (Qcmult_comm (MSELoss (fake out) x) wt). fold recon.
  repeat split; try reflexivity. exact Hl.
Qed.

(** C3.  On a batch with an image and with gradient mode on, the
    discriminator step hands to [backward] the sum of the real-sample
    loss, the penalty and the fake-sample loss, the penalty being ten times
    the mean over the batch of the squared norm of the gradient of the
    real-sample scores with respect to the real input; it updates the
    discriminator from the gradient of that sum and returns (real loss +
    fake loss, penalty, real loss, fake loss): the first entry leaves the
    penalty out. *)
Theorem train_step_discriminator_losses self data it w x :
  data !! "image" = Some x →
  grad_enabled w = true →
  let p := params (discriminator w) in
  let x_rand := rand (run_generator self (params (generator w)) x (rng w)).1 in
  let real := bce (discriminator_forward p true x) 1 in
  let rand_ := bce (discriminator_forward p true x_rand) 0 in
  let penalty :=
    (Qc_of_Z 10
     * mean (sq_norm
             <$> input_grad (λ x', Torch.sum (discriminator_forward p true x'))
                   x))%Qc in
  let r := train_step_discriminator self data it w in
  r.1 = Py.Ok ((real + rand_)%Qc, penalty, real, rand_)
  ∧ calls r.2 =
      calls w
      ++ [Forward NDiscriminator true; Forward NGenerator false;
          Forward NDiscriminator true;
          Backward (real + penalty + rand_)%Qc; Step NDiscriminator]
  ∧ grad (discriminator r.2) =
      Some (param_grad (discriminator_loss_at x x_rand) p)
  ∧ params (discriminator r.2) =
      (opt_step (optimizer_d w) p
         (param_grad (discriminator_loss_at x x_rand) p)).2
  ∧ ∀ q,
      discriminator_loss_at x x_rand q =
      (bce (discriminator_forward q true x) 1
       + Qc_of_Z 10
         * mean (sq_norm
                 <$> input_grad
                       (λ x', Torch.sum (discriminator_forward q true x')) x)
       + bce (discriminator_forward q true x_rand) 0)%Qc.
Proof.
  intros Hx Hg p x_rand real rand_ penalty r. subst r.
  rewrite (train_step_discriminator_run self data it w x Hx Hg).
  assert (Hl : ∀ q,
    discriminator_loss_at x x_rand q =
    (bce (discriminator_forward q true x) 1
     + Qc_of_Z 10
       * mean (sq_norm
               <$> input_grad
                     (λ x', Torch.sum (discriminator_forward q true x')) x)
     + bce (discriminator_forward q true x_rand) 0)%Qc).
  { intros q. unfold discriminator_loss_at, d_loss_real_at, d_loss_rand_at,
      reg_at, score_gradient. by rewrite Qcplus_0_l. }
  cbn [fst snd after_discriminator_step discriminator calls grad params].
  fold p. fold x_rand. rewrite Hl.
  repeat split; try reflexivity. exact Hl.
Qed.

(** C4.  After a successful generator step, an averaged generator, if
    there is one, has each parameter equal to 0.999 times its previous
    value plus 0.001 times the parameter of the live generator as the
    optimizer has just left it; without an averaged generator there is
    none afterwards and [update_average] is not called. *)
Theorem train_step_generator_ema self data it w x wt :
  data !! "image" = Some x →
  recon_weight self = Some wt →
  grad_enabled w = true →
  let w' := (train_step_generator self data it w).2 in
  (∀ t, generator_test w = Some t →
     ∃ t', generator_test w' = Some t'
       ∧ length (params t') = min (length (params t)) (length (params (generator w')))
       ∧ (∀ i old live,
            params t !! i = Some old →
            params (generator w') !! i = Some live →
            params t' !! i = Some (Q2Qc 0.999 * old + Q2Qc 0.001 * live)%Qc)
       ∧ last (calls w') = Some UpdateAverage)
  ∧ (generator_test w = None →
     generator_test w' = None
     ∧ calls w' =
         calls w
         ++ [Forward NGenerator true; Forward NDiscriminator true;
             Forward NDiscriminator true;
             Backward (generator_loss_at self w x wt (params (generator w)));
             Step NGenerator]).
Proof.
  intros Hx Hw Hg w'. subst w'.
  rewrite (train_step_generator_run self data it w x wt Hx Hw Hg).
  cbn [fst snd after_generator_step generator generator_test calls params].
  split.
  - intros t Ht. rewrite Ht. cbn [fmap option_fmap option_map].
    eexists. split; [reflexivity|].
    cbn [with_params params]. unfold ema. split; [|split].
    + apply length_zip_with.
    + intros i old live Ho Hl.
      assert (E : (1 - Q2Qc 0.999)%Qc = Q2Qc 0.001)
        by (apply Qc_is_canon; reflexivity).
      rewrite lookup_zip_with, Ho, Hl, E. reflexivity.
    + rewrite !app_assoc. apply last_snoc.
  - intros Ht. rewrite Ht. split; [reflexivity|]. by rewrite app_nil_r.
Qed.

(** C5.  Whatever the batch and the world, the generator step leaves the
    parameters of the discriminator as they were, and the discriminator
    step leaves the parameters of the generator, their accumulated
    gradient, the generator's optimizer and the averaged generator as they
    were; and when the discriminator step runs on a batch with an image, its
    only call of the generator is made with gradient mode off. *)
Theorem train_steps_frame self data it w :
  params (discriminator (train_step_generator self data it w).2)
  = params (discriminator w)
  ∧ params (generator (train_step_discriminator self data it w).2)
    = params (generator w)
  ∧ grad (generator (train_step_discriminator self data it w).2)
    = grad (generator w)
  ∧ optimizer (train_step_discriminator self data it w).2 = optimizer w
  ∧ generator_test (train_step_discriminator self data it w).2
    = generator_test w
  ∧ (is_Some (data !! "image") →
     ∃ c1 c2,
       calls (train_step_discriminator self data it w).2
       = calls w ++ c1 ++ [Forward NGenerator false] ++ c2
       ∧ Forall (λ c, ∃ b, c = Forward NDiscriminator b) c1
       ∧ Forall (λ c, ∀ b, c ≠ Forward NGenerator b) c2).
Proof.
  unfold train_step_generator, train_step_discriminator, get_image.
  destruct self as [vd vvd mg fd k rw].
  destruct w as [[pg rg tg gg] [pd rd td gd] T og od ge r f c].
  destruct (data !! "image") as [x|].
  - destruct T as [t|], mg, ge, rw; exec;
      (repeat split; try reflexivity; intros _;
       eexists [_], _; rewrite <- ?app_assoc;
       (split; [reflexivity|]);
       split; repeat constructor; try (eexists; reflexivity);
       intros; discriminate).
  - destruct T as [t|], mg, ge, rw; exec;
      (repeat split; try reflexivity; intros [? ?]; discriminate).
Qed.

(** C10.  Whatever the batch and the world, the generator step and the
    generator step without the call [discriminator(x_fake)] return the
    same result (the same three metrics, or the same exception) and leave
    the same world but for the log of calls, where they differ by calls of
    the discriminator only: the loss handed to [backward], the gradient,
    the parameters, the optimizer and the averaged generator agree. *)
Theorem d_fake_call_is_dead self data it w :
  let r := train_step_generator self data it w in
  let r' := train_step_generator_without_d_fake self data it w in
  r.1 = r'.1
  ∧ set_calls [] r.2 = set_calls [] r'.2
  ∧ List.filter (λ c, negb (is_discriminator_forward c)) (calls r.2)
    = List.filter (λ c, negb (is_discriminator_forward c)) (calls r'.2).
Proof.
  unfold train_step_generator, train_step_generator_without_d_fake, get_image.
  destruct self as [vd vvd mg fd k rw].
  destruct w as [[pg rg tg gg] [pd rd td gd] T og od ge r f c].
  destruct (data !! "image") as [x|], T as [t|], mg, ge, rw; exec;
    rewrite <- ?app_assoc, ?List.filter_app; repeat split; reflexivity.
Qed.

(** C1, amended.  On a batch with an image, with a reconstruction weight
    and with gradient mode on, [train_step] runs the generator step and
    then, in the world it leaves, the discriminator step on the same
    batch, and returns a dictionary of exactly seven entries: the total
    generator loss (the loss of the generator's [backward]), the
    random-branch adversarial loss, the reconstruction loss, the sum of
    the real and fake discriminator losses, the gradient penalty, the real
    loss and the fake loss.  The entry [discriminator] is the sum without
    the penalty, while the loss of the discriminator's [backward] has it. *)
Theorem train_step_metrics self data it w x wt :
  data !! "image" = Some x →
  recon_weight self = Some wt →
  grad_enabled w = true →
  let w1 := (train_step_generator self data it w).2 in
  let w2 := (train_step_discriminator self data it w1).2 in
  ∃ loss_gen loss_recon loss_g_rand loss_d reg_d real_d rand_d,
    (train_step_generator self data it w).1
    = Py.Ok (loss_gen, loss_recon, loss_g_rand)
    ∧ (train_step_discriminator self data it w1).1
      = Py.Ok (loss_d, reg_d, real_d, rand_d)
    ∧ train_step self data it w
      = (Py.Ok (metrics loss_gen loss_g_rand loss_recon loss_d reg_d real_d
                  rand_d), w2)
    ∧ dom (metrics loss_gen loss_g_rand loss_recon loss_d reg_d real_d rand_d)
      = {[ "generator_total"; "generator_random"; "recon"; "discriminator";
           "regularizer"; "real_d"; "rand_d" ]}
    ∧ size (metrics loss_gen loss_g_rand loss_recon loss_d reg_d real_d rand_d)
      = 7%nat
    ∧ loss_gen = (loss_g_rand + loss_recon)%Qc
    ∧ loss_d = (real_d + rand_d)%Qc
    ∧ calls w2 =
        calls w
        ++ [Forward NGenerator true; Forward NDiscriminator true;
            Forward NDiscriminator true; Backward loss_gen; Step NGenerator]
        ++ (if generator_test w is Some _ then [UpdateAverage] else [])
        ++ [Forward NDiscriminator true; Forward NGenerator false;
            Forward NDiscriminator true;
            Backward (real_d + reg_d + rand_d)%Qc; Step NDiscriminator].
Proof.
  intros Hx Hw Hg w1 w2.
  pose proof (train_step_generator_run self data it w x wt Hx Hw Hg) as Hgen.
  assert (E1 : w1 = after_generator_step self w x wt)
    by (subst w1; by rewrite Hgen).
  assert (Hg1 : grad_enabled w1 = true) by (by rewrite E1).
  pose proof (train_step_discriminator_run self data it w1 x Hx Hg1) as Hdis.
  cbv zeta in Hdis.
  assert (E2 : w2 = after_discriminator_step self w1 x)
    by (subst w2; by rewrite Hdis).
  clearbody w2. subst w2. clearbody w1. subst w1.
  do 7 eexists.
  split; [by rewrite Hgen|].
  split; [by rewrite Hdis|].
  split.
  { unfold train_step. cbv [mbind M_bind bind]. rewrite Hgen. cbv beta iota.
    rewrite Hdis. reflexivity. }
  split.
  { unfold metrics. rewrite !dom_insert_L, dom_empty_L. set_solver. }
  split.
  { unfold metrics.
    rewrite !map_size_insert_None, map_size_empty; [reflexivity|..];
      by simplify_map_eq. }
  split; [reflexivity|].
  split; [reflexivity|].
  cbn [snd after_discriminator_step after_generator_step calls].
  unfold discriminator_loss_at. rewrite Qcplus_0_l, <- !app_assoc.
  reflexivity.
Qed.

End Training.

(** ** Evaluation *)

Section Evaluation.
Context `{F : Framework}.

(** One turn of the loop of [eval_step]. *)
Lemma eval_step_body_run gen g acc i w :
  net_of gen w = Some g →
  eval_step_body gen acc i w =
  (Py.Ok (acc ++ [channels 3 (generator_sample (params g) (training g) (rng w)).1]),
   set_calls (calls w ++ [Forward gen false])
     (set_rng (generator_sample (params g) (training g) (rng w)).2 w)).
Proof.
  intros Hn. unfold eval_step_body.
  destruct w as [G D T og od ge r f c].
  destruct gen; cbn [net_of generator discriminator generator_test] in Hn;
    subst; try (injection Hn as <-); exec; reflexivity.
Qed.

(** The loop of [eval_step] draws [k] batches and logs [k] calls. *)
Lemma eval_loop gen g k : ∀ s acc w,
  net_of gen w = Some g →
  training g = false →
  foldM (eval_step_body gen) acc (seq s k) w =
  (Py.Ok (acc ++ (eval_samples (params g) k (rng w)).1),
   set_calls (calls w ++ replicate k (Forward gen false))
     (set_rng (eval_samples (params g) k (rng w)).2 w)).
Proof.
  induction k as [|k IH]; intros s acc w Hn Ht.
  - destruct w. cbn. by rewrite !app_nil_r.
  - cbn [seq foldM]. cbv [mbind M_bind bind].
    rewrite (eval_step_body_run gen g acc s w Hn).
    rewrite IH; [|by destruct gen, w|done].
    cbn [eval_samples fst snd]. rewrite Ht.
    destruct w. cbn. rewrite <- !app_assoc. reflexivity.
Qed.

Lemma eval_samples_length p k r : length (eval_samples p k r).1 = k.
Proof.
  revert r. induction k as [|k IH]; intros r; [done|].
  cbn [eval_samples fst length]. by rewrite IH.
Qed.

Lemma eval_samples_channels p k r :
  Forall (Forall (λ img : list (list (list Qc)), (length img ≤ 3)%nat))
    (eval_samples p k r).1.
Proof.
  revert r. induction k as [|k IH]; intros r; [constructor|].
  cbn [eval_samples fst]. constructor; [|apply IH].
  unfold channels. apply Forall_fmap, Forall_forall. intros img _.
  cbn. rewrite length_take. lia.
Qed.

(** Without iterations [eval_step] raises: [torch.cat] has nothing to
    concatenate. *)
Lemma eval_step_no_iterations self w :
  n_eval_iterations self = 0%nat →
  (eval_step self w).1 = Py.Raise Py.RuntimeError.
Proof.
  intros Hk. unfold eval_step.
  destruct self as [vd vvd mg fd k rw]. cbv [n_eval_iterations] in Hk. subst k.
  destruct w as [G D T og od ge r f c].
  destruct T as [t|]; exec; reflexivity.
Qed.

(** C7, amended.  When [n_eval_iterations] is [k] with [k] at least one
    and [fid_dict] has the keys [m] and [s], [eval_step] makes exactly [k]
    calls of the selected generator, each with gradient mode off, keeps
    the first three channels of each batch, concatenates the batches along
    the batch dimension, clamps the result to [0, 1], and returns the
    dictionary with the single entry [fid_score], the Fréchet distance
    between the statistics of the samples and those of [fid_dict] with
    [eps = 1e-4]. *)
Theorem eval_step_fid self w k m s :
  n_eval_iterations self = k →
  (0 < k)%nat →
  fid_dict self !! "m" = Some m →
  fid_dict self !! "s" = Some s →
  let gen := if generator_test w is Some _ then NGeneratorTest else NGenerator in
  let p := params (default (generator w) (generator_test w)) in
  let batches := (eval_samples p k (rng w)).1 in
  let stats := calculate_activation_statistics (clamp 0 1 (concat batches)) in
  let r := eval_step self w in
  length batches = k
  ∧ Forall (Forall (λ img : list (list (list Qc)), (length img ≤ 3)%nat)) batches
  ∧ r.1 = Py.Ok {[ "fid_score" :=
                   calculate_frechet_distance stats.1 stats.2 m s (Q2Qc 0.0001) ]}
  ∧ calls r.2 = calls w ++ replicate k (Forward gen false).
Proof.
  intros Hk Hpos Hm Hs gen p batches stats r.
  split; [apply eval_samples_length|].
  split; [apply eval_samples_channels|].
  subst r stats batches p gen. unfold eval_step.
  destruct self as [vd vvd mg fd k' rw].
  cbv [n_eval_iterations fid_dict] in Hk, Hm, Hs. subst k'.
  destruct k as [|k]; [lia|].
  destruct w as [G D T og od ge r f c].
  destruct T as [t|]; exec.
  - rewrite (eval_loop NGeneratorTest (with_training false t) (S k)); [|done..].
    exec. cbn [eval_samples fst snd cat with_training params app].
    exec. rewrite Hm, Hs. exec. split; reflexivity.
  - rewrite (eval_loop NGenerator (with_training false G) (S k)); [|done..].
    exec. cbn [eval_samples fst snd cat with_training params app].
    exec. rewrite Hm, Hs. exec. split; reflexivity.
Qed.

End Evaluation.

(** ** Strings and files *)

Lemma append_cons (x : ascii) (a b : string) :
  String x a +:+ b = String x (a +:+ b).
Proof. reflexivity. Qed.

Lemma append_assoc (a b c : string) : (a +:+ b) +:+ c = a +:+ b +:+ c.
Proof. induction a as [|x a IH]; [done|]. by rewrite !append_cons, IH. Qed.

Lemma append_nil_r (a : string) : a +:+ "" = a.
Proof. induction a as [|x a IH]; [done|]. by rewrite append_cons, IH. Qed.

Lemma count_nl_app (a b : string) :
  Py.count_nl (a +:+ b) = (Py.count_nl a + Py.count_nl b)%nat.
Proof.
  induction a as [|x a IH]; [done|].
  rewrite append_cons. cbn [Py.count_nl]. rewrite IH. lia.
Qed.

Lemma count_nl_zeros n : Py.count_nl (Py.zeros n) = 0%nat.
Proof. induction n as [|n IH]; [done|]. cbn. by rewrite IH. Qed.

Lemma count_nl_pretty_N_go (x : N) (s : string) :
  Py.count_nl (pretty_N_go x s) = Py.count_nl s.
Proof.
  revert s. induction (N.lt_wf_0 x) as [x _ IH]; intros s.
  assert (x = 0 ∨ 0 < x)%N as [->|Hx] by lia.
  - by rewrite pretty_N_go_0.
  - rewrite pretty_N_go_step by done.
    rewrite IH by (by apply N.div_lt). cbn.
    unfold pretty_N_char. by repeat case_match.
Qed.

Lemma count_nl_pretty_N (n : N) : Py.count_nl (pretty n) = 0%nat.
Proof.
  unfold pretty, pretty_N. case_decide; [done|].
  by rewrite count_nl_pretty_N_go.
Qed.

Lemma count_nl_str_int (n : Z) : Py.count_nl (Py.str_int n) = 0%nat.
Proof.
  unfold Py.str_int. destruct n as [|p|p]; [done|..].
  - apply (count_nl_pretty_N (Npos p)).
  - change (pretty (Zneg p)) with ("-" +:+ pretty (Npos p)).
    by rewrite count_nl_app, count_nl_pretty_N.
Qed.

Lemma count_nl_rstrip (s : string) :
  (Py.count_nl (Py.rstrip_zeros s) ≤ Py.count_nl s)%nat.
Proof.
  induction s as [|c s IH]; [done|]. cbn.
  destruct (Py.rstrip_zeros s) as [|d r] eqn:E.
  - case_bool_decide; cbn in *; lia.
  - cbn in *. lia.
Qed.

Lemma count_nl_strip (s : string) :
  Py.count_nl s = 0%nat → Py.count_nl (Py.strip_trailing_zeros s) = 0%nat.
Proof.
  intros Hs. unfold Py.strip_trailing_zeros.
  pose proof (count_nl_rstrip s) as H.
  destruct (Py.rstrip_zeros s); [done|]. lia.
Qed.

Lemma count_nl_repr_round (x : Qc) (nd : nat) :
  Py.count_nl (Py.repr_round x nd) = 0%nat.
Proof.
  unfold Py.repr_round, Py.zfill_left.
  rewrite !count_nl_app, count_nl_str_int, count_nl_strip.
  - by case_bool_decide.
  - by rewrite count_nl_app, count_nl_zeros, count_nl_str_int.
Qed.

Lemma count_nl_repr_pairs (nd : nat) (l : list (Qc * Qc)) :
  Py.count_nl (Py.repr_pairs nd l) = 0%nat.
Proof.
  unfold Py.repr_pairs. rewrite !count_nl_app. cbn.
  assert (H : Py.count_nl (String.concat ", " (Py.repr_pair nd <$> l)) = 0%nat).
  { induction l as [|p l IH]; [done|].
    cbn [fmap list_fmap String.concat] in *.
    destruct (Py.repr_pair nd <$> l) eqn:E.
    - unfold Py.repr_pair. by rewrite !count_nl_app, !count_nl_repr_round.
    - rewrite !count_nl_app, IH. unfold Py.repr_pair.
      by rewrite !count_nl_app, !count_nl_repr_round. }
  by rewrite H.
Qed.

Lemma count_nl_txt_line (it : Z) (name : string) (a : list (list Qc)) :
  Py.count_nl name = 0%nat → Py.count_nl (txt_line it name a) = 1%nat.
Proof.
  intros Hn. unfold txt_line.
  by rewrite !count_nl_app, count_nl_str_int, count_nl_repr_pairs, Hn.
Qed.

(** [round] goes to a nearest multiple: the result is within half a unit
    of the scaled value. *)
Lemma round_scaled_nearest (x : Qc) (nd : nat) :
  let y := (x * Qc_of_Z (10 ^ Z.of_nat nd))%Qc in
  let k := Qc_of_Z (Py.round_scaled x nd) in
  (k - Q2Qc (1 # 2) ≤ y)%Qc ∧ (y ≤ k + Q2Qc (1 # 2))%Qc.
Proof.
  intros y k. subst k. unfold Py.round_scaled. fold y.
  pose proof (Qfloor_le y) as Hlo. pose proof (Qlt_floor y) as Hhi.
  set (f := Qfloor y) in *.
  rewrite inject_Z_plus in Hhi.
  repeat case_bool_decide;
    unfold Qcle, Qclt in *; cbn [this Qcplus Qcminus Qcopp Q2Qc] in *;
    rewrite ?Qred_correct in *.
  all: try (change (this (Qc_of_Z f)) with (inject_Z f) in *).
  all: try (change (this (Qc_of_Z (f + 1))) with (inject_Z (f + 1)) in *).
  all: rewrite ?inject_Z_plus in *.
  all: change (inject_Z 1) with 1%Q in *.
  all: try (split; lra).
  all: destruct (Z.even f); cbn [this Qc_of_Z]; rewrite ?inject_Z_plus;
    change (inject_Z 1) with 1%Q; split; lra.
Qed.

(** A tie goes to the even neighbour. *)
Lemma round_scaled_tie (x : Qc) (nd : nat) :
  let y := (x * Qc_of_Z (10 ^ Z.of_nat nd))%Qc in
  (y - Qc_of_Z (Qfloor y))%Qc = Q2Qc (1 # 2) →
  Z.even (Py.round_scaled x nd) = true.
Proof.
  intros y Hy. unfold Py.round_scaled. fold y. rewrite Hy.
  rewrite !bool_decide_eq_false_2
    by (intros Hlt; by apply Qclt_not_eq in Hlt).
  destruct (Z.even (Qfloor y)) eqn:E; [exact E|].
  by rewrite Z.even_add, E.
Qed.

Lemma write_insert (p c s : string) (m : gmap string string) :
  Py.write p s (<[p := c]> m) = <[p := c +:+ s]> m.
Proof.
  unfold Py.write. apply map_eq. intros k.
  destruct (decide (k = p)) as [->|Hk].
  - by rewrite lookup_alter_eq, !lookup_insert_eq.
  - by rewrite lookup_alter_ne, !lookup_insert_ne.
Qed.

Lemma pairs_lookup (l : list Qc) (k : nat) (u v : Qc) :
  pairs l !! k = Some (u, v)
  ↔ l !! (2 * k)%nat = Some u ∧ l !! (2 * k + 1)%nat = Some v.
Proof.
  revert l. induction k as [|k IH]; intros l.
  - destruct l as [|a [|b l]]; cbn; split;
      try (intros [??]); try intros ?; simplify_eq; done.
  - replace (2 * S k)%nat with (S (S (2 * k))) by lia.
    replace (S (S (2 * k)) + 1)%nat with (S (S (2 * k + 1))) by lia.
    destruct l as [|a [|b l]]; cbn [pairs lookup list_lookup].
    + split; [done|by intros [??]].
    + split; [done|by intros [??]].
    + apply IH.
Qed.

Lemma pairs_length (l : list Qc) : length (pairs l) = (length l / 2)%nat.
Proof.
  remember (length l) as n eqn:Hn. revert l Hn.
  induction n as [n IH] using lt_wf_ind. intros l Hn.
  destruct l as [|a [|b l]]; cbn [pairs length] in *; subst; [done..|].
  rewrite (IH (length l)) by (lia || done).
  change (S (S (length l))) with (1 * 2 + length l)%nat.
  rewrite Nat.add_comm, Nat.div_add by lia. lia.
Qed.

(** Projections of a world given by its fields. *)
Ltac proj :=
  cbv beta iota delta
    [modify set_generator set_discriminator set_generator_test set_optimizer
     set_optimizer_d set_grad_enabled set_rng set_fs set_calls log
     generator discriminator generator_test optimizer optimizer_d
     grad_enabled rng fs calls].

(** ** The UV log and the metrics of a batch *)

Section Logging.
Context `{F : Framework}.

Lemma open_uv_file (p : string) (m : gmap string string) :
  (if negb (Py.exists_ p m) then Py.open_w p m else Py.open_a p m)
  = <[p := default "" (m !! p)]> m.
Proof.
  unfold Py.exists_, Py.open_w, Py.open_a.
  case_bool_decide as H; cbn.
  - destruct H as [c Hc]. rewrite Hc. cbn. by rewrite insert_id.
  - destruct (m !! p) as [c|] eqn:E; [|done]. destruct H. eauto.
Qed.

Lemma name_dict_0 : name_dict !! 0%nat = Some "pred".
Proof. vm_compute. reflexivity. Qed.
Lemma name_dict_1 : name_dict !! 1%nat = Some "swap".
Proof. vm_compute. reflexivity. Qed.
Lemma name_dict_2 : name_dict !! 2%nat = Some "rand".
Proof. vm_compute. reflexivity. Qed.

Lemma record_uvs_body_run uv out_path it i a name w :
  uv !! i = Some a →
  name_dict !! i = Some name →
  record_uvs_body uv out_path it tt i w
  = (Py.Ok tt, set_fs (Py.write out_path (txt_line it name a) (fs w)) w).
Proof.
  intros Ha Hn. unfold record_uvs_body. rewrite Ha, Hn. reflexivity.
Qed.

Lemma record_uvs_run uv path it w :
  (length uv ≤ 3)%nat →
  record_uvs uv path it w
  = (Py.Ok tt,
     set_fs (<[Py.path_join path "uv.txt" :=
                 default "" (fs w !! Py.path_join path "uv.txt")
                 +:+ uv_text it uv]> (fs w)) w).
Proof.
  intros Hlen. unfold record_uvs, uv_text.
  set (p := Py.path_join path "uv.txt").
  assert (Hopen :
    (if negb (Py.exists_ p (fs w))
     then modify (λ w, set_fs (Py.open_w p (fs w)) w)
     else modify (λ w, set_fs (Py.open_a p (fs w)) w)) w
    = (Py.Ok tt, set_fs (<[p := default "" (fs w !! p)]> (fs w)) w)).
  { rewrite <- open_uv_file. by destruct (negb _). }
  cbv [mbind M_bind bind get]. rewrite Hopen. clear Hopen.
  set (c := default "" (fs w !! p)). clearbody c p.
  generalize Py.nl. intros nl.
  destruct w as [G D T og od ge r f cs]. proj.
  destruct uv as [|a1 [|a2 [|a3 [|a4 uv]]]]; [..|cbn in Hlen; lia];
    cbn [length seq foldM]; cbv [mbind M_bind bind ret M_ret mret];
    rewrite ?(record_uvs_body_run _ _ _ 0 a1 "pred")
      by (reflexivity || exact name_dict_0);
    proj;
    rewrite ?(record_uvs_body_run _ _ _ 1 a2 "swap")
      by (reflexivity || exact name_dict_1);
    proj;
    rewrite ?(record_uvs_body_run _ _ _ 2 a3 "rand")
      by (reflexivity || exact name_dict_2);
    proj; cbn [zip_with String.concat];
    repeat match goal with
           | |- context [txt_line ?i ?n ?a] =>
             generalize (txt_line i n a); intro
           end;
    rewrite !write_insert, ?append_assoc, ?append_nil_r; reflexivity.
Qed.

Lemma zip_with_take_r {A B C} (g : A → B → C) (x : list A) (f : list B) :
  zip_with g x (take (length x) f) = zip_with g x f.
Proof.
  revert f. induction x as [|a x IH]; intros [|b f]; cbn; try done.
  by rewrite IH.
Qed.

Lemma sum_metrics_loop (x f : Tensor) n : ∀ s acc w,
  (s + n ≤ length x)%nat →
  (s + n ≤ length f)%nat →
  foldM (sum_metrics_body x f) acc (seq s n) w
  = (Py.Ok
       ((acc.1 + Torch.sum (zip_with (λ a b, compare_psnr (transpose_hwc a)
                                               (transpose_hwc b))
                              (take n (drop s x)) (take n (drop s f))))%Qc,
        (acc.2 + Torch.sum (zip_with (λ a b, compare_ssim (transpose_hwc a)
                                               (transpose_hwc b))
                              (take n (drop s x)) (take n (drop s f))))%Qc),
     w).
Proof.
  induction n as [|n IH]; intros s [ap as_] w Hx Hf.
  - cbn. by rewrite !Qcplus_0_r.
  - destruct (lookup_lt_is_Some_2 x s) as [a Ha]; [lia|].
    destruct (lookup_lt_is_Some_2 f s) as [b Hb]; [lia|].
    cbn [seq foldM]. cbv [mbind M_bind bind].
    unfold sum_metrics_body at 1. rewrite Ha, Hb.
    cbv [mbind M_bind bind ret mret M_ret].
    rewrite IH by lia.
    rewrite (drop_S x a s Ha), (drop_S f b s Hb).
    cbn [take zip_with Torch.sum foldr fst snd].
    by rewrite !Qcplus_assoc.
Qed.

Lemma sum_metrics_run (x f : Tensor) w :
  (length x ≤ length f)%nat →
  sum_metrics x f w
  = (Py.Ok (Torch.sum (zip_with (λ a b, compare_psnr (transpose_hwc a)
                                          (transpose_hwc b)) x f),
            Torch.sum (zip_with (λ a b, compare_ssim (transpose_hwc a)
                                          (transpose_hwc b)) x f)),
     w).
Proof.
  intros Hl. unfold sum_metrics.
  rewrite sum_metrics_loop by (cbn; lia).
  cbn [drop fst snd]. rewrite firstn_all, !zip_with_take_r, !Qcplus_0_l.
  reflexivity.
Qed.

End Logging.

Lemma path_join_inj (d a b : string) :
  Py.path_join d a = Py.path_join d b → a = b.
Proof.
  unfold Py.path_join. case_bool_decide as Hd; [done|].
  destruct (Py.ends_with_slash d); intros Hj.
  - by apply (inj (String.append d)) in Hj.
  - apply (inj (String.append d)) in Hj.
    by apply (inj (String.append "/")) in Hj.
Qed.

Lemma length_zeros n : String.length (Py.zeros n) = n.
Proof. induction n as [|n IH]; [done|]. cbn. by rewrite IH. Qed.

Lemma length_append (a b : string) :
  String.length (a +:+ b) = (String.length a + String.length b)%nat.
Proof.
  induction a as [|x a IH]; [done|]. rewrite append_cons. cbn. by rewrite IH.
Qed.

Lemma length_zfill_left w s :
  String.length (Py.zfill_left w s) = (w `max` String.length s)%nat.
Proof. unfold Py.zfill_left. rewrite length_append, length_zeros. lia. Qed.

(** Symbolic execution of [visualize], up to its two loops. *)
Ltac exec_vis :=
  cbv beta iota zeta delta
    [mbind mret M_bind M_ret bind ret raise get modify lift
     eval on_net net_of set_net
     set_generator set_discriminator set_generator_test set_optimizer
     set_optimizer_d set_grad_enabled set_rng set_fs set_calls log
     generator discriminator generator_test optimizer optimizer_d
     grad_enabled rng fs calls
     params requires_grad training grad
     with_requires_grad with_training with_grad with_params
     vis_dir val_vis_dir multi_gpu fid_dict n_eval_iterations recon_weight
     no_grad here eNet eReal eRand
     wrt needs item const vmap tracked
     call_generator get_image select_gen visualize_out
     save_grid save_image join_dir join_one py_div
     NetId_eqb Leaf_eqb default from_option id orb andb negb fst snd
     option_fmap option_map fmap].

(** ** Visualisation *)

Section Visualisation.
Context `{F : Framework}.

Lemma visualize_snapshot self data it mode val_idx w x d :
  data !! "image" = Some x →
  mode ≠ Some "val" →
  vis_dir self = Some d →
  (length (uvs (visualize_out w x)) ≤ 3)%nat →
  let out := visualize_out w x in
  let name := "visualization_" +:+ Py.fmt_010d it +:+ ".png" in
  let r := visualize self data it mode val_idx w in
  r.1 = Py.Ok (Some (grid_of x out), None, None)
  ∧ fs r.2 =
      <[Py.path_join d "uv.txt" :=
          default "" (fs w !! Py.path_join d "uv.txt") +:+ uv_text it (uvs out)]>
        (<[Py.path_join d name := png_encode (grid_of x out)]> (fs w))
  ∧ calls r.2 = calls w ++ [Forward NGenerator false; SaveImage (Py.path_join d name)].
Proof.
  intros Hx Hmode Hd Huv out name r. subst r out name.
  unfold visualize, save_grid, get_image, grid_of.
  rewrite Hx, (bool_decide_eq_false_2 _ Hmode).
  revert Huv.
  destruct self as [vd vvd mg fd k rw]. cbv [vis_dir] in Hd. subst vd.
  destruct w as [[pg rg tg gg] D T og od ge r f c].
  destruct T as [t|]; exec_vis; intros Huv.
  - rewrite record_uvs_run by done. proj.
    rewrite lookup_insert_ne, <- !app_assoc; [done|].
    intros H%path_join_inj. discriminate.
  - rewrite record_uvs_run by done. proj.
    rewrite lookup_insert_ne, <- !app_assoc; [done|].
    intros H%path_join_inj. discriminate.
Qed.

Lemma visualize_metrics_only self data it val_idx w x :
  data !! "image" = Some x →
  val_idx ≠ Some true →
  x ≠ [] →
  (length x ≤ length (fake (visualize_out w x)))%nat →
  let out := visualize_out w x in
  let r := visualize self data it (Some "val") val_idx w in
  r.1 = Py.Ok (None, Some (batch_mean compare_psnr x (fake out)),
               Some (batch_mean compare_ssim x (fake out)))
  ∧ fs r.2 = fs w
  ∧ calls r.2 = calls w ++ [Forward NGenerator false].
Proof.
  intros Hx Hidx Hne Hlen out r. subst r out.
  unfold visualize, get_image, batch_mean.
  rewrite Hx, (bool_decide_eq_true_2 (Some "val" = Some "val")) by done.
  rewrite (bool_decide_eq_false_2 _ Hidx).
  assert (Hn : bool_decide (length x = 0%nat) = false).
  { apply bool_decide_eq_false_2. by destruct x. }
  revert Hlen.
  destruct self as [vd vvd mg fd k rw].
  destruct w as [[pg rg tg gg] D T og od ge r f c].
  destruct T as [t|]; exec_vis; intros Hlen;
    rewrite sum_metrics_run by done; exec_vis; rewrite Hn; done.
Qed.

Lemma visualize_validation_save self data it w x d :
  data !! "image" = Some x →
  val_vis_dir self = Some d →
  x ≠ [] →
  (length x ≤ length (fake (visualize_out w x)))%nat →
  (length (uvs (visualize_out w x)) ≤ 3)%nat →
  let out := visualize_out w x in
  let psnr := batch_mean compare_psnr x (fake out) in
  let ssim := batch_mean compare_ssim x (fake out) in
  let name :=
    "visualization_" +:+ Py.str_int it +:+ "_evaluation_P"
    +:+ Py.repr_round psnr 2 +:+ "_S" +:+ Py.repr_round ssim 2 +:+ ".png" in
  let r := visualize self data it (Some "val") (Some true) w in
  r.1 = Py.Ok (Some (grid_of x out), Some psnr, Some ssim)
  ∧ fs r.2 =
      <[Py.path_join d "uv.txt" :=
          default "" (fs w !! Py.path_join d "uv.txt") +:+ uv_text it (uvs out)]>
        (<[Py.path_join d name := png_encode (grid_of x out)]> (fs w))
  ∧ calls r.2 = calls w ++ [Forward NGenerator false; SaveImage (Py.path_join d name)].
Proof.
  intros Hx Hd Hne Hlen Huv out psnr ssim name r. subst r name psnr ssim out.
  unfold visualize, save_grid, get_image, batch_mean, grid_of.
  rewrite Hx, !(bool_decide_eq_true_2 (Some "val" = Some "val")) by done.
  rewrite (bool_decide_eq_true_2 (Some true = Some true)) by done.
  assert (Hn : bool_decide (length x = 0%nat) = false).
  { apply bool_decide_eq_false_2. by destruct x. }
  revert Hlen Huv.
  destruct self as [vd vvd mg fd k rw]. cbv [val_vis_dir] in Hd. subst vvd.
  destruct w as [[pg rg tg gg] D T og od ge r f c].
  destruct T as [t|]; exec_vis; intros Hlen Huv;
    rewrite sum_metrics_run by done; exec_vis; rewrite Hn; exec_vis;
    rewrite record_uvs_run by done; proj;
    (rewrite lookup_insert_ne, <- !app_assoc;
       [done|intros Hj%path_join_inj; discriminate]).
Qed.

(** C9.  On three UV arrays, [record_uvs] succeeds and changes nothing but
    the file [uv.txt] of the given directory, which it creates when absent
    and extends otherwise by exactly four lines: the lines of the first,
    second and third array, labelled [pred], [swap] and [rand], then an
    empty line.  A line reads [<it>th <label>-uv : <list>] and ends with a
    line feed; the list holds the pairs of consecutive flattened values,
    each printed rounded to three decimal places. *)
Theorem record_uvs_appends pred swap_ rand_ path it w :
  let out_path := Py.path_join path "uv.txt" in
  let text :=
    txt_line it "pred" pred +:+ txt_line it "swap" swap_
    +:+ txt_line it "rand" rand_ +:+ Py.nl in
  record_uvs [pred; swap_; rand_] path it w
  = (Py.Ok tt,
     set_fs (<[out_path := default "" (fs w !! out_path) +:+ text]> (fs w)) w)
  ∧ Py.count_nl text = 4%nat
  ∧ (∀ name a,
       txt_line it name a
       = Py.str_int it +:+ "th " +:+ name +:+ "-uv : "
         +:+ Py.repr_pairs 3 (pairs (concat a)) +:+ Py.nl)
  ∧ (∀ (l : list Qc) k u v,
       pairs l !! k = Some (u, v)
       ↔ l !! (2 * k)%nat = Some u ∧ l !! (2 * k + 1)%nat = Some v)
  ∧ (∀ l : list (Qc * Qc),
       Py.repr_pairs 3 l
       = "[" +:+ String.concat ", "
                   ((λ p, "(" +:+ Py.repr_round p.1 3 +:+ ", "
                          +:+ Py.repr_round p.2 3 +:+ ")") <$> l)
         +:+ "]")
  ∧ (∀ x : Qc,
       Py.repr_round x 3
       = (if bool_decide (x < 0)%Qc then "-" else "")
         +:+ Py.str_int (Z.abs (Py.round_scaled x 3) / 1000) +:+ "."
         +:+ Py.strip_trailing_zeros
               (Py.zfill_left 3
                  (Py.str_int (Z.abs (Py.round_scaled x 3) mod 1000)))
       ∧ (Qc_of_Z (Py.round_scaled x 3) - Q2Qc (1 # 2) ≤ x * Qc_of_Z 1000)%Qc
       ∧ (x * Qc_of_Z 1000 ≤ Qc_of_Z (Py.round_scaled x 3) + Q2Qc (1 # 2))%Qc).
Proof.
  intros out_path text. subst out_path text.
  split; [|split; [|split; [|split; [|split]]]];
    [| | | | |intros x; split; [reflexivity|apply (round_scaled_nearest x 3)]].
  - rewrite record_uvs_run by (cbn; lia). unfold uv_text.
    cbn [zip_with String.concat]. rewrite !append_assoc. reflexivity.
  - by rewrite !count_nl_app, !count_nl_txt_line.
  - reflexivity.
  - apply pairs_lookup.
  - reflexivity.
Qed.

(** C8.  On a batch with an image, [visualize] behaves by mode.  Outside
    validation mode, with a visualisation directory, it returns the grid
    and two [None], and the file [visualization_<it>.png] of that
    directory, [<it>] being the iteration padded with zeros to ten digits,
    holds the grid.  In validation mode without the save flag, on a
    non-empty batch, it returns [None] for the grid with the means of PSNR
    and SSIM over the batch, and writes no file.  In validation mode with
    the save flag, it returns the grid with the two means, and the file
    [visualization_<it>_evaluation_P<psnr>_S<ssim>.png] of the validation
    directory, the means rounded to two places, holds the grid. *)
Theorem visualize_modes self data it w x :
  data !! "image" = Some x →
  let out := visualize_out w x in
  let psnr := batch_mean compare_psnr x (fake out) in
  let ssim := batch_mean compare_ssim x (fake out) in
  (∀ mode val_idx d,
     mode ≠ Some "val" →
     vis_dir self = Some d →
     (length (uvs out) ≤ 3)%nat →
     let name := "visualization_" +:+ Py.fmt_010d it +:+ ".png" in
     let r := visualize self data it mode val_idx w in
     r.1 = Py.Ok (Some (grid_of x out), None, None)
     ∧ fs r.2 !! Py.path_join d name = Some (png_encode (grid_of x out))
     ∧ calls r.2
       = calls w ++ [Forward NGenerator false; SaveImage (Py.path_join d name)]
     ∧ (0 ≤ it →
        Py.fmt_010d it = Py.zfill_left 10 (Py.str_int it)
        ∧ String.length (Py.fmt_010d it)
          = (10 `max` String.length (Py.str_int it))%nat))
  ∧ (∀ val_idx,
       val_idx ≠ Some true →
       x ≠ [] →
       (length x ≤ length (fake out))%nat →
       let r := visualize self data it (Some "val") val_idx w in
       r.1 = Py.Ok (None, Some psnr, Some ssim)
       ∧ fs r.2 = fs w
       ∧ calls r.2 = calls w ++ [Forward NGenerator false])
  ∧ (∀ d,
       val_vis_dir self = Some d →
       x ≠ [] →
       (length x ≤ length (fake out))%nat →
       (length (uvs out) ≤ 3)%nat →
       let name :=
         "visualization_" +:+ Py.str_int it +:+ "_evaluation_P"
         +:+ Py.repr_round psnr 2 +:+ "_S" +:+ Py.repr_round ssim 2
         +:+ ".png" in
       let r := visualize self data it (Some "val") (Some true) w in
       r.1 = Py.Ok (Some (grid_of x out), Some psnr, Some ssim)
       ∧ fs r.2 !! Py.path_join d name = Some (png_encode (grid_of x out))
       ∧ calls r.2
         = calls w ++ [Forward NGenerator false; SaveImage (Py.path_join d name)]).
Proof.
  intros Hx out psnr ssim. split; [|split].
  - intros mode val_idx d Hmode Hd Huv name r.
    destruct (visualize_snapshot self data it mode val_idx w x d Hx Hmode Hd Huv)
      as (Hr & Hfs & Hc).
    split; [exact Hr|]. split; [|split; [exact Hc|]].
    + subst r. rewrite Hfs, lookup_insert_ne, lookup_insert_eq; [done|].
      intros Hj%path_join_inj. discriminate.
    + intros Hit. unfold Py.fmt_010d.
      rewrite (proj2 (Z.ltb_ge it 0) Hit). split; [done|].
      apply length_zfill_left.
  - intros val_idx Hidx Hne Hlen r.
    exact (visualize_metrics_only self data it val_idx w x Hx Hidx Hne Hlen).
  - intros d Hd Hne Hlen Huv name r.
    destruct (visualize_validation_save self data it w x d Hx Hd Hne Hlen Huv)
      as (Hr & Hfs & Hc).
    split; [exact Hr|]. split; [|exact Hc].
    subst r. rewrite Hfs, lookup_insert_ne, lookup_insert_eq; [done|].
    intros Hj%path_join_inj. discriminate.
Qed.

(** With an averaged generator present, a snapshot outside validation mode
    is drawn by the live generator: the single generator call is on the
    live network, with the live parameters and the live [training] flag,
    while the averaged generator is put in evaluation mode and never
    called. *)
Lemma visualize_ignores_generator_test self data it mode val_idx w x d t :
  data !! "image" = Some x →
  mode ≠ Some "val" →
  vis_dir self = Some d →
  generator_test w = Some t →
  let out :=
    (generator_forward (params (generator w)) (training (generator w)) None
       ModeVal true x (rng w)).1 in
  (length (uvs out) ≤ 3)%nat →
  let r := visualize self data it mode val_idx w in
  r.1 = Py.Ok (Some (grid_of x out), None, None)
  ∧ (∃ path, calls r.2 = calls w ++ [Forward NGenerator false; SaveImage path])
  ∧ generator_test r.2 = Some (with_training false t)
  ∧ generator r.2 = generator w.
Proof.
  intros Hx Hmode Hd Ht out Huv r.
  assert (Eo : visualize_out w x = out).
  { unfold visualize_out. by rewrite Ht. }
  rewrite <- Eo in Huv |- *.
  destruct (visualize_snapshot self data it mode val_idx w x d Hx Hmode Hd Huv)
    as (Hr & _ & Hc).
  split; [exact Hr|]. split; [eauto|].
  subst r. clear Hr Hc Eo out. revert Huv.
  unfold visualize, save_grid, get_image.
  rewrite Hx, (bool_decide_eq_false_2 _ Hmode).
  destruct self as [vd vvd mg fd k rw]. cbv [vis_dir] in Hd. subst vd.
  destruct w as [[pg rg tg gg] D T og od ge r f c].
  cbv [generator_test] in Ht. subst T.
  exec_vis. intros Huv. rewrite record_uvs_run by done. proj. done.
Qed.

End Visualisation.

(** * The small trainer

    The properties above at concrete inputs, and the inputs at which two
    sentences of the specification fail. *)

(** ** The Python runtime on examples *)

Example fmt_010d_5 : Py.fmt_010d 5 = "0000000005".
Proof. vm_compute. reflexivity. Qed.
Example fmt_010d_neg : Py.fmt_010d (-5) = "-000000005".
Proof. vm_compute. reflexivity. Qed.
Example fmt_010d_wide : Py.fmt_010d 123456789012 = "123456789012".
Proof. vm_compute. reflexivity. Qed.
Example repr_round_1 : Py.repr_round (Q2Qc 0.12345) 3 = "0.123".
Proof. vm_compute. reflexivity. Qed.
Example repr_round_2 : Py.repr_round (Q2Qc 0.5) 3 = "0.5".
Proof. vm_compute. reflexivity. Qed.
Example repr_round_3 : Py.repr_round (Q2Qc 0.0625) 3 = "0.062".
Proof. vm_compute. reflexivity. Qed.
Example repr_round_4 : Py.repr_round (Q2Qc (-0.0004)) 3 = "-0.0".
Proof. vm_compute. reflexivity. Qed.
Example repr_round_5 : Py.repr_round (Q2Qc (-12.0075)) 3 = "-12.008".
Proof. vm_compute. reflexivity. Qed.
Example repr_round_6 : Py.repr_round (Q2Qc 3) 3 = "3.0".
Proof. vm_compute. reflexivity. Qed.
Example repr_round_7 : Py.repr_pairs 3 [(Q2Qc 0.12345, Q2Qc 0.5); (Q2Qc 1, Q2Qc 0.0205)] = "[(0.123, 0.5), (1.0, 0.02)]".
Proof. vm_compute. reflexivity. Qed.
Example path_join_plain : Py.path_join "out/vis" "uv.txt" = "out/vis/uv.txt".
Proof. vm_compute. reflexivity. Qed.
Example path_join_slash : Py.path_join "out/" "uv.txt" = "out/uv.txt".
Proof. vm_compute. reflexivity. Qed.

(** ** Instances of the properties *)

(** Witness of C2 on the small trainer. *)
Lemma train_step_generator_total_loss_witness :
  Toy.batch !! "image" = Some Toy.image
  ∧ recon_weight (Toy.trainer 1) = Some 2%Qc
  ∧ grad_enabled (Toy.world None) = true
  ∧ ∃ adv recon,
      (train_step_generator (Toy.trainer 1) Toy.batch None (Toy.world None)).1
      = Py.Ok ((adv + recon)%Qc, recon, adv).
Proof.
  assert (H1 : Toy.batch !! "image" = Some Toy.image) by (vm_compute; reflexivity).
  assert (H2 : recon_weight (Toy.trainer 1) = Some 2%Qc) by reflexivity.
  assert (H3 : grad_enabled (Toy.world None) = true) by reflexivity.
  split; [exact H1|]. split; [exact H2|]. split; [exact H3|].
  eexists _, _.
  exact (proj1 (train_step_generator_total_loss (Toy.trainer 1) Toy.batch
                  None (Toy.world None) Toy.image 2%Qc H1 H2 H3)).
Defined.

(** Witness of C3 on the small trainer. *)
Lemma train_step_discriminator_losses_witness :
  Toy.batch !! "image" = Some Toy.image
  ∧ grad_enabled (Toy.world None) = true
  ∧ ∃ real rand_ penalty,
      (train_step_discriminator (Toy.trainer 1) Toy.batch None (Toy.world None)).1
      = Py.Ok ((real + rand_)%Qc, penalty, real, rand_).
Proof.
  assert (H1 : Toy.batch !! "image" = Some Toy.image) by (vm_compute; reflexivity).
  assert (H2 : grad_enabled (Toy.world None) = true) by reflexivity.
  split; [exact H1|]. split; [exact H2|].
  eexists _, _, _.
  exact (proj1 (train_step_discriminator_losses (Toy.trainer 1) Toy.batch
                  None (Toy.world None) Toy.image H1 H2)).
Defined.

(** Witness of C4 on the small trainer with an averaged generator. *)
Lemma train_step_generator_ema_witness :
  Toy.batch !! "image" = Some Toy.image
  ∧ recon_weight (Toy.trainer 1) = Some 2%Qc
  ∧ grad_enabled (Toy.world (Some Toy.averaged)) = true
  ∧ generator_test (Toy.world (Some Toy.averaged)) = Some (Toy.net Toy.averaged)
  ∧ ∃ t',
      generator_test
        (train_step_generator (Toy.trainer 1) Toy.batch None
           (Toy.world (Some Toy.averaged))).2
      = Some t'
      ∧ length (params t') = 2%nat.
Proof.
  assert (H1 : Toy.batch !! "image" = Some Toy.image) by (vm_compute; reflexivity).
  assert (H2 : recon_weight (Toy.trainer 1) = Some 2%Qc) by reflexivity.
  assert (H3 : grad_enabled (Toy.world (Some Toy.averaged)) = true) by reflexivity.
  assert (H4 : generator_test (Toy.world (Some Toy.averaged))
               = Some (Toy.net Toy.averaged)) by reflexivity.
  split; [exact H1|]. split; [exact H2|]. split; [exact H3|].
  split; [exact H4|].
  destruct (proj1 (train_step_generator_ema (Toy.trainer 1) Toy.batch None
                     (Toy.world (Some Toy.averaged)) Toy.image 2%Qc H1 H2 H3)
              (Toy.net Toy.averaged) H4) as (t' & Ht & Hl & _).
  exists t'. split; [exact Ht|]. rewrite Hl. vm_compute. reflexivity.
Defined.

(** Witness of C5 on the small trainer. *)
Lemma train_steps_frame_witness :
  is_Some (Toy.batch !! "image")
  ∧ params (discriminator
              (train_step_generator (Toy.trainer 1) Toy.batch None
                 (Toy.world None)).2)
    = [Q2Qc 0.25]
  ∧ ∃ c1 c2,
      calls (train_step_discriminator (Toy.trainer 1) Toy.batch None
               (Toy.world None)).2
      = c1 ++ [Forward NGenerator false] ++ c2.
Proof.
  assert (H1 : is_Some (Toy.batch !! "image")) by (vm_compute; eauto).
  destruct (train_steps_frame (Toy.trainer 1) Toy.batch None (Toy.world None))
    as (Hd & _ & _ & _ & _ & Hc).
  split; [exact H1|]. split; [exact Hd|].
  destruct (Hc H1) as (c1 & c2 & Hcalls & _).
  exists c1, c2. exact Hcalls.
Defined.

(** Witness of C1, as amended, on the small trainer. *)
Lemma train_step_metrics_witness :
  Toy.batch !! "image" = Some Toy.image
  ∧ recon_weight (Toy.trainer 1) = Some 2%Qc
  ∧ grad_enabled (Toy.world None) = true
  ∧ ∃ m, (train_step (Toy.trainer 1) Toy.batch None (Toy.world None)).1 = Py.Ok m
         ∧ size m = 7%nat.
Proof.
  assert (H1 : Toy.batch !! "image" = Some Toy.image) by (vm_compute; reflexivity).
  assert (H2 : recon_weight (Toy.trainer 1) = Some 2%Qc) by reflexivity.
  assert (H3 : grad_enabled (Toy.world None) = true) by reflexivity.
  split; [exact H1|]. split; [exact H2|]. split; [exact H3|].
  destruct (train_step_metrics (Toy.trainer 1) Toy.batch None (Toy.world None)
              Toy.image 2%Qc H1 H2 H3)
    as (lg & lr & la & ld & rg & re & ra & _ & _ & Hm & _ & Hs & _).
  eexists. split; [by rewrite Hm|exact Hs].
Defined.

(** Witness of C7, as amended, on the small trainer. *)
Lemma eval_step_fid_witness :
  n_eval_iterations (Toy.trainer 2) = 2%nat
  ∧ (0 < 2)%nat
  ∧ fid_dict (Toy.trainer 2) !! "m" = Some 1%Qc
  ∧ fid_dict (Toy.trainer 2) !! "s" = Some 2%Qc
  ∧ calls (eval_step (Toy.trainer 2) (Toy.world (Some Toy.averaged))).2
    = [Forward NGeneratorTest false; Forward NGeneratorTest false].
Proof.
  assert (H1 : n_eval_iterations (Toy.trainer 2) = 2%nat) by reflexivity.
  assert (H2 : (0 < 2)%nat) by lia.
  assert (H3 : fid_dict (Toy.trainer 2) !! "m" = Some 1%Qc)
    by (vm_compute; reflexivity).
  assert (H4 : fid_dict (Toy.trainer 2) !! "s" = Some 2%Qc)
    by (vm_compute; reflexivity).
  split; [exact H1|]. split; [exact H2|]. split; [exact H3|].
  split; [exact H4|].
  exact (proj2 (proj2 (proj2 (eval_step_fid (Toy.trainer 2)
           (Toy.world (Some Toy.averaged)) 2 1%Qc 2%Qc H1 H2 H3 H4)))).
Defined.

(** Counterexample to C7 as stated: without iterations there is nothing
    to concatenate. *)
Lemma eval_step_zero_iterations_raises :
  n_eval_iterations (Toy.trainer 0) = 0%nat
  ∧ (eval_step (Toy.trainer 0) (Toy.world None)).1 = Py.Raise Py.RuntimeError
  ∧ ¬ ∃ v, (eval_step (Toy.trainer 0) (Toy.world None)).1
           = Py.Ok {[ "fid_score" := v ]}.
Proof.
  assert (H : (eval_step (Toy.trainer 0) (Toy.world None)).1
              = Py.Raise Py.RuntimeError) by (vm_compute; reflexivity).
  split; [reflexivity|]. split; [exact H|].
  intros [v Hv]. rewrite H in Hv. discriminate.
Qed.

(** Counterexample to C1 as stated: the entry [discriminator] of the
    returned dictionary is not the total loss of the discriminator, the
    one its [backward] receives. *)
Lemma train_step_discriminator_entry_is_not_total :
  Backward Toy.total_discriminator_loss
  ∈ calls (train_step (Toy.trainer 1) Toy.batch None (Toy.world None)).2
  ∧ ¬ ∃ m, (train_step (Toy.trainer 1) Toy.batch None (Toy.world None)).1
           = Py.Ok m
           ∧ m !! "discriminator" = Some Toy.total_discriminator_loss.
Proof.
  split.
  - apply list_elem_of_lookup. exists 8%nat. vm_compute. reflexivity.
  - assert (Hne :
      match (train_step (Toy.trainer 1) Toy.batch None (Toy.world None)).1 with
      | Py.Ok m => m !! "discriminator"
      | Py.Raise _ => None
      end ≠ Some Toy.total_discriminator_loss).
    { vm_compute. discriminate. }
    intros (m & Hm & Hl). apply Hne. rewrite Hm. exact Hl.
Qed.

(** Witness of C8 on the small trainer, at iteration 5. *)
Lemma visualize_modes_witness :
  Toy.batch !! "image" = Some Toy.image
  ∧ (None : option string) ≠ Some "val"
  ∧ vis_dir (Toy.trainer 1) = Some "out/vis"
  ∧ val_vis_dir (Toy.trainer 1) = Some "out/val"
  ∧ (None : option bool) ≠ Some true
  ∧ Toy.image ≠ []
  ∧ (length Toy.image
     ≤ length (fake (visualize_out (Toy.world None) Toy.image)))%nat
  ∧ (length (uvs (visualize_out (Toy.world None) Toy.image)) ≤ 3)%nat
  ∧ (0 ≤ 5)%Z
  ∧ (∃ grid,
       (visualize (Toy.trainer 1) Toy.batch 5 None None (Toy.world None)).1
       = Py.Ok (Some grid, None, None))
  ∧ Py.fmt_010d 5 = Py.zfill_left 10 (Py.str_int 5)
  ∧ (∃ psnr ssim,
       (visualize (Toy.trainer 1) Toy.batch 5 (Some "val") None
          (Toy.world None)).1
       = Py.Ok (None, Some psnr, Some ssim))
  ∧ (∃ grid psnr ssim,
       (visualize (Toy.trainer 1) Toy.batch 5 (Some "val") (Some true)
          (Toy.world None)).1
       = Py.Ok (Some grid, Some psnr, Some ssim)).
Proof.
  assert (H1 : Toy.batch !! "image" = Some Toy.image) by (vm_compute; reflexivity).
  assert (H2 : (None : option string) ≠ Some "val") by discriminate.
  assert (H3 : vis_dir (Toy.trainer 1) = Some "out/vis") by reflexivity.
  assert (H4 : val_vis_dir (Toy.trainer 1) = Some "out/val") by reflexivity.
  assert (H5 : (None : option bool) ≠ Some true) by discriminate.
  assert (H6 : Toy.image ≠ []) by discriminate.
  assert (H7 : (length Toy.image
                ≤ length (fake (visualize_out (Toy.world None) Toy.image)))%nat)
    by (vm_compute; lia).
  assert (H8 : (length (uvs (visualize_out (Toy.world None) Toy.image)) ≤ 3)%nat)
    by (vm_compute; lia).
  assert (H9 : (0 ≤ 5)%Z) by lia.
  destruct (visualize_modes (Toy.trainer 1) Toy.batch 5 (Toy.world None)
              Toy.image H1) as (Ha & Hb & Hc).
  destruct (Ha None None "out/vis" H2 H3 H8) as (Ha1 & _ & _ & Ha4).
  destruct (Hb None H5 H6 H7) as (Hb1 & _).
  destruct (Hc "out/val" H4 H6 H7 H8) as (Hc1 & _).
  split; [exact H1|]. split; [exact H2|]. split; [exact H3|].
  split; [exact H4|]. split; [exact H5|]. split; [exact H6|].
  split; [exact H7|]. split; [exact H8|]. split; [exact H9|].
  split; [eexists; exact Ha1|].
  split; [exact (proj1 (Ha4 H9))|].
  split; [eexists _, _; exact Hb1|].
  eexists _, _, _; exact Hc1.
Defined.

(** C6, at a failing input.  On the small trainer with an averaged
    generator whose parameters differ from the live ones, [eval_step]
    calls the averaged generator, but the snapshot of [visualize] is the
    one the live generator draws, the same as without an averaged
    generator, and not the one the averaged generator would draw. *)
Lemma visualize_snapshot_is_live :
  (visualize (Toy.trainer 1) Toy.batch 5 None None
     (Toy.world (Some Toy.averaged))).1
  = (visualize (Toy.trainer 1) Toy.batch 5 None None (Toy.world None)).1
  ∧ (visualize (Toy.trainer 1) Toy.batch 5 None None
       (Toy.world (Some Toy.averaged))).1
    ≠ Py.Ok
        (Some (grid_of (F := Toy.framework) Toy.image
                 (Toy.g_forward Toy.averaged false None ModeVal true
                    Toy.image 0).1),
         None, None)
  ∧ calls (visualize (Toy.trainer 1) Toy.batch 5 None None
             (Toy.world (Some Toy.averaged))).2
    = [Forward NGenerator false;
       SaveImage "out/vis/visualization_0000000005.png"]
  ∧ calls (eval_step (Toy.trainer 1) (Toy.world (Some Toy.averaged))).2
    = [Forward NGeneratorTest false].
Proof.
  split; [vm_compute; reflexivity|].
  split; [vm_compute; discriminate|].
  split; vm_compute; reflexivity.
Qed.

(** * Further properties *)

(** ** Failures of a training step *)

Section TrainingFailures.
Context `{F : Framework}.


(** With the reconstruction weight left at [None], [train_step] on a
    batch with an image runs the generator and twice the discriminator and
    then raises [TypeError] at the product with the weight: there is no
    backward pass and no optimizer step, so no parameter changes, and the
    discriminator step does not begin. *)
Theorem train_step_without_weight self data it w x :
  data !! "image" = Some x →
  recon_weight self = None →
  let r := train_step self data it w in
  r.1 = Py.Raise Py.TypeError
  ∧ calls r.2 =
      calls w
      ++ [Forward NGenerator (grad_enabled w);
          Forward NDiscriminator (grad_enabled w);
          Forward NDiscriminator (grad_enabled w)]
  ∧ rng r.2 = (run_generator self (params (generator w)) x (rng w)).2
  ∧ params (generator r.2) = params (generator w)
  ∧ params (discriminator r.2) = params (discriminator w)
  ∧ generator_test r.2 = generator_test w
  ∧ optimizer r.2 = optimizer w
  ∧ optimizer_d r.2 = optimizer_d w
  ∧ grad (generator r.2) = None
  ∧ grad (discriminator r.2) = grad (discriminator w).
Proof.
  intros Hx Hw r. subst r.
  unfold train_step, train_step_generator, get_image, run_generator.
  rewrite Hx.
  destruct self as [vd vvd mg fd k rw]. cbv [recon_weight] in Hw. subst rw.
  destruct w as [[pg rg tg gg] [pd rd td gd] T og od ge r f c].
  destruct mg, ge; exec; rewrite <- ?app_assoc; repeat split; reflexivity.
Qed.

(** The discriminator step of [train_step] meets the generator as the
    generator step has just left it: the fake-sample loss it reports is
    that of the discriminator, with the parameters it had before its own
    update, on the random sample drawn by the updated generator from the
    random state the generator step left; the real-sample loss is that of
    the same discriminator on the real batch. *)
Theorem train_step_discriminator_sees_updated_generator self data it w x wt :
  data !! "image" = Some x →
  recon_weight self = Some wt →
  grad_enabled w = true →
  let p := params (generator w) in
  let p' := (opt_step (optimizer w) p
               (param_grad (generator_loss_at self w x wt) p)).2 in
  let r1 := (run_generator self p x (rng w)).2 in
  let x_rand := rand (run_generator self p' x r1).1 in
  let d := params (discriminator w) in
  ∃ m, (train_step self data it w).1 = Py.Ok m
       ∧ m !! "rand_d" = Some (bce (discriminator_forward d true x_rand) 0)
       ∧ m !! "real_d" = Some (bce (discriminator_forward d true x) 1)
       ∧ params (generator (train_step self data it w).2) = p'.
Proof.
  intros Hx Hw Hg p p' r1 x_rand d.
  pose proof (train_step_generator_run self data it w x wt Hx Hw Hg) as Hgen.
  assert (Hg1 : grad_enabled (after_generator_step self w x wt) = true)
    by reflexivity.
  pose proof (train_step_discriminator_run self data it
                (after_generator_step self w x wt) x Hx Hg1) as Hdis.
  cbv zeta in Hdis.
  unfold train_step. cbv [mbind M_bind bind]. rewrite Hgen. cbv beta iota.
  rewrite Hdis. eexists. split; [reflexivity|].
  cbn [fst snd after_discriminator_step after_generator_step generator
       discriminator params rng].
  split; [|split]; [by simplify_map_eq..|reflexivity].
Qed.

(** Neither training step reads the flags it finds: the generator step
    starts by setting [requires_grad] and [training] on both networks and
    by clearing the generator's gradient, the discriminator step likewise
    with the discriminator's gradient, so the same step from a world that
    differs only there gives the same result and the same world. *)
Theorem train_steps_reset_flags self data it w rg tg gg rd td gd :
  train_step_generator self data it
    (set_generator (with_flags rg tg gg (generator w))
       (set_discriminator
          (with_flags rd td (grad (discriminator w)) (discriminator w)) w))
  = train_step_generator self data it w
  ∧ train_step_discriminator self data it
      (set_generator (with_flags rg tg (grad (generator w)) (generator w))
         (set_discriminator (with_flags rd td gd (discriminator w)) w))
    = train_step_discriminator self data it w.
Proof.
  unfold train_step_generator, train_step_discriminator, get_image.
  destruct self as [vd vvd mg fd k rw].
  destruct w as [[pg rg0 tg0 gg0] [pd rd0 td0 gd0] T og od ge r f c].
  destruct (data !! "image") as [x|], T as [t|], mg, ge, rw;
    split; cbv [with_flags]; exec; reflexivity.
Qed.

(** Called with gradient mode off (inside [torch.no_grad()]),
    [train_step] runs the three forward passes of the generator step
    untracked and raises [RuntimeError] at [gen_loss.backward()]: no
    optimizer steps, no parameter changes, and the discriminator step does
    not begin. *)
Theorem train_step_under_no_grad self data it w x wt :
  data !! "image" = Some x →
  recon_weight self = Some wt →
  grad_enabled w = false →
  let r := train_step self data it w in
  r.1 = Py.Raise Py.RuntimeError
  ∧ calls r.2 =
      calls w
      ++ [Forward NGenerator false; Forward NDiscriminator false;
          Forward NDiscriminator false]
  ∧ params (generator r.2) = params (generator w)
  ∧ params (discriminator r.2) = params (discriminator w)
  ∧ generator_test r.2 = generator_test w
  ∧ optimizer r.2 = optimizer w
  ∧ optimizer_d r.2 = optimizer_d w
  ∧ grad (generator r.2) = None
  ∧ grad_enabled r.2 = false.
Proof.
  intros Hx Hw Hg r. subst r.
  unfold train_step, train_step_generator, get_image.
  rewrite Hx.
  destruct self as [vd vvd mg fd k rw]. cbv [recon_weight] in Hw. subst rw.
  destruct w as [[pg rg tg gg] [pd rd td gd] T og od ge r f c].
  cbv [grad_enabled] in Hg. subst ge.
  destruct mg; exec; rewrite <- ?app_assoc; repeat split; reflexivity.
Qed.

End TrainingFailures.
(** ** Evaluation and visualisation between training steps *)

Section Interleaving.
Context `{F : Framework}.

(** [eval_step] leaves the same world whether it returns or raises. *)
Lemma eval_step_world self w :
  (eval_step self w).2 = after_eval_step self w.
Proof.
  unfold eval_step, after_eval_step, selected, selected_in_eval_mode.
  destruct self as [vd vvd mg fd k rw].
  destruct w as [G D T og od ge r f c].
  destruct T as [t|]; exec.
  - rewrite (eval_loop NGeneratorTest (with_training false t) k); [|done..].
    exec. cbn [app with_training params].
    destruct (cat _); exec; [|reflexivity].
    destruct (fd !! "m"); exec; [|reflexivity].
    destruct (fd !! "s"); exec; reflexivity.
  - rewrite (eval_loop NGenerator (with_training false G) k); [|done..].
    exec. cbn [app with_training params].
    destruct (cat _); exec; [|reflexivity].
    destruct (fd !! "m"); exec; [|reflexivity].
    destruct (fd !! "s"); exec; reflexivity.
Qed.

(** Whatever the trainer and the world, and whether it returns or raises,
    [eval_step] changes no parameter, gradient, optimizer or file and puts
    gradient mode back; it makes [n_eval_iterations] calls of the selected
    generator, and leaves that generator in evaluation mode. *)
Theorem eval_step_frame self w :
  let w' := (eval_step self w).2 in
  params (generator w') = params (generator w)
  ∧ grad (generator w') = grad (generator w)
  ∧ discriminator w' = discriminator w
  ∧ params <$> generator_test w' = params <$> generator_test w
  ∧ optimizer w' = optimizer w
  ∧ optimizer_d w' = optimizer_d w
  ∧ fs w' = fs w
  ∧ grad_enabled w' = grad_enabled w
  ∧ calls w' =
      calls w ++ replicate (n_eval_iterations self) (Forward (selected w) false)
  ∧ (training <$> net_of (selected w) w') = Some false.
Proof.
  intros w'. subst w'. rewrite eval_step_world.
  unfold after_eval_step, selected, selected_in_eval_mode.
  destruct w as [G D T og od ge r f c].
  destruct T as [t|]; repeat split; reflexivity.
Qed.

(** With at least one iteration, a [fid_dict] without the key [m] makes
    [eval_step] raise [KeyError] on [m], and one with [m] but without [s]
    on [s]; the error comes after all the samples have been drawn. *)
Theorem eval_step_missing_statistics self w :
  (0 < n_eval_iterations self)%nat →
  (fid_dict self !! "m" = None →
   (eval_step self w).1 = Py.Raise (Py.KeyError "m"))
  ∧ (is_Some (fid_dict self !! "m") →
     fid_dict self !! "s" = None →
     (eval_step self w).1 = Py.Raise (Py.KeyError "s"))
  ∧ calls (eval_step self w).2 =
      calls w ++ replicate (n_eval_iterations self) (Forward (selected w) false).
Proof.
  intros Hk. split; [|split].
  - intros Hm. unfold eval_step.
    destruct self as [vd vvd mg fd k rw].
    cbv [n_eval_iterations fid_dict] in Hk, Hm.
    destruct k as [|k]; [lia|].
    destruct w as [G D T og od ge r f c].
    destruct T as [t|]; exec.
    + rewrite (eval_loop NGeneratorTest (with_training false t) (S k)); [|done..].
      exec. cbn [eval_samples fst snd cat with_training params app].
      exec. rewrite Hm. reflexivity.
    + rewrite (eval_loop NGenerator (with_training false G) (S k)); [|done..].
      exec. cbn [eval_samples fst snd cat with_training params app].
      exec. rewrite Hm. reflexivity.
  - intros [m Hm] Hs. unfold eval_step.
    destruct self as [vd vvd mg fd k rw].
    cbv [n_eval_iterations fid_dict] in Hk, Hm, Hs.
    destruct k as [|k]; [lia|].
    destruct w as [G D T og od ge r f c].
    destruct T as [t|]; exec.
    + rewrite (eval_loop NGeneratorTest (with_training false t) (S k)); [|done..].
      exec. cbn [eval_samples fst snd cat with_training params app].
      exec. rewrite Hm, Hs. reflexivity.
    + rewrite (eval_loop NGenerator (with_training false G) (S k)); [|done..].
      exec. cbn [eval_samples fst snd cat with_training params app].
      exec. rewrite Hm, Hs. reflexivity.
  - rewrite eval_step_world. unfold after_eval_step.
    destruct w as [G D T og od ge r f c]. by destruct T.
Qed.

(** An evaluation pass between two training steps reaches the next
    training step through the random state only: after [eval_step] the
    step returns the same metrics, or the same exception, and reaches the
    same parameters and optimizer states as it does from the world before
    the evaluation with the random state the evaluation left. *)
Theorem train_step_after_eval_step self data it w :
  let w_e := (eval_step self w).2 in
  let r := train_step self data it w_e in
  let r' := train_step self data it (set_rng (rng w_e) w) in
  r.1 = r'.1
  ∧ generator r.2 = generator r'.2
  ∧ discriminator r.2 = discriminator r'.2
  ∧ params <$> generator_test r.2 = params <$> generator_test r'.2
  ∧ optimizer r.2 = optimizer r'.2
  ∧ optimizer_d r.2 = optimizer_d r'.2.
Proof.
  intros w_e. subst w_e. rewrite eval_step_world.
  unfold train_step, train_step_generator, train_step_discriminator,
    get_image, after_eval_step, selected, selected_in_eval_mode.
  destruct self as [vd vvd mg fd k rw].
  destruct w as [[pg rg tg gg] [pd rd td gd] T og od ge r f c].
  cbv [n_eval_iterations].
  generalize (replicate k (Forward (match T with Some _ => NGeneratorTest
                                            | None => NGenerator end) false)).
  intros cs.
  destruct (data !! "image") as [x|], T as [t|], mg, ge, rw;
    exec; repeat split; reflexivity.
Qed.

End Interleaving.
(** ** The UV log at its edges *)

Section LoggingEdges.
Context `{F : Framework}.

(** A loop whose body keeps a reflexive and transitive relation between
    the worlds before and after it keeps it as a whole, whether it
    finishes or raises. *)
Lemma foldM_world {A B} (R : World → World → Prop) (f : B → A → M B) :
  (∀ w, R w w) →
  (∀ w1 w2 w3, R w1 w2 → R w2 w3 → R w1 w3) →
  (∀ b a w, R w (f b a w).2) →
  ∀ l b w, R w (foldM f b l w).2.
Proof.
  intros Hrefl Htrans Hf l.
  induction l as [|a l IH]; intros b w; cbn [foldM].
  - apply Hrefl.
  - cbv [mbind M_bind bind]. specialize (Hf b a w).
    destruct (f b a w) as [[b'|e] w']; cbn [snd] in *; [|done].
    eapply Htrans; [exact Hf|apply IH].
Qed.

Lemma files_only_refl w : files_only w w.
Proof. by destruct w. Qed.

Lemma files_only_trans w1 w2 w3 :
  files_only w1 w2 → files_only w2 w3 → files_only w1 w3.
Proof.
  unfold files_only. intros H12 H23. rewrite H23 at 1. rewrite H12 at 1.
  by destruct w1.
Qed.

Lemma files_only_set_fs w f : files_only w (set_fs f w).
Proof. by destruct w. Qed.

Lemma record_uvs_files_only uv path it w :
  files_only w (record_uvs uv path it w).2.
Proof.
  unfold record_uvs. cbv [mbind M_bind bind get].
  set (p := Py.path_join path "uv.txt"). clearbody p.
  set (w1 := ((if negb (Py.exists_ p (fs w))
               then modify (λ w, set_fs (Py.open_w p (fs w)) w)
               else modify (λ w, set_fs (Py.open_a p (fs w)) w)) w)).
  assert (H1 : w1.1 = Py.Ok tt ∧ files_only w w1.2).
  { subst w1. destruct (negb _); split; try done; apply files_only_set_fs. }
  destruct w1 as [[[]|e] w1']; cbn [fst snd] in H1; destruct H1 as [? H1];
    [|done].
  pose proof (foldM_world files_only (record_uvs_body uv p it)
                files_only_refl files_only_trans) as Hloop.
  specialize (Hloop (λ b i w0, ltac:(
    unfold record_uvs_body; cbv [mbind M_bind bind ret raise modify];
    destruct (uv !! i); [|apply files_only_refl];
    destruct (name_dict !! i); [|apply files_only_refl];
    apply files_only_set_fs)) (seq 0 (length uv)) tt w1').
  destruct (foldM _ _ _ _) as [[[]|e] w2]; cbn [snd] in *.
  - cbv [modify snd]. eapply files_only_trans; [exact H1|].
    eapply files_only_trans; [exact Hloop|apply files_only_set_fs].
  - eapply files_only_trans; [exact H1|exact Hloop].
Qed.

Lemma sum_metrics_world x f w : (sum_metrics x f w).2 = w.
Proof.
  unfold sum_metrics.
  apply (foldM_world (λ w w', w' = w) (sum_metrics_body x f));
    [done|congruence|].
  intros [a b] i w0. unfold sum_metrics_body.
  cbv [mbind M_bind bind ret raise M_ret mret].
  destruct (x !! i); [|done]. by destruct (f !! i).
Qed.

(** The labels stop at three: with more than three UV arrays,
    [record_uvs] raises [KeyError] on the index 3, after it has written
    the lines of the first three arrays and before the closing empty line. *)
Theorem record_uvs_fourth_array uv path it w :
  (3 < length uv)%nat →
  let p := Py.path_join path "uv.txt" in
  let r := record_uvs uv path it w in
  r.1 = Py.Raise (Py.KeyError "3")
  ∧ r.2 =
      set_fs (<[p := default "" (fs w !! p)
                     +:+ String.concat ""
                           (zip_with (txt_line it) ["pred"; "swap"; "rand"] uv)]>
                (fs w)) w.
Proof.
  intros Hlen p r. subst r. unfold record_uvs. fold p.
  assert (Hopen :
    (if negb (Py.exists_ p (fs w))
     then modify (λ w, set_fs (Py.open_w p (fs w)) w)
     else modify (λ w, set_fs (Py.open_a p (fs w)) w)) w
    = (Py.Ok tt, set_fs (<[p := default "" (fs w !! p)]> (fs w)) w)).
  { rewrite <- open_uv_file. by destruct (negb _). }
  cbv [mbind M_bind bind get]. rewrite Hopen. clear Hopen.
  set (c := default "" (fs w !! p)). clearbody c p.
  destruct w as [G D T og od ge rr f cs]. proj.
  destruct uv as [|a1 [|a2 [|a3 [|a4 uv]]]]; try (cbn in Hlen; lia).
  cbn [length seq foldM]; cbv [mbind M_bind bind ret M_ret mret].
  rewrite (record_uvs_body_run _ _ _ 0 a1 "pred")
    by (reflexivity || exact name_dict_0).
  proj.
  rewrite (record_uvs_body_run _ _ _ 1 a2 "swap")
    by (reflexivity || exact name_dict_1).
  proj.
  rewrite (record_uvs_body_run _ _ _ 2 a3 "rand")
    by (reflexivity || exact name_dict_2).
  proj. cbn [zip_with String.concat].
  repeat match goal with
         | |- context [txt_line ?i ?n ?a] =>
           generalize (txt_line i n a); intro
         end.
  unfold record_uvs_body. cbn [lookup list_lookup].
  cbv [mbind M_bind bind ret M_ret mret raise fst snd].
  change (name_dict !! 3%nat) with (@None string).
  cbn [fst snd].
  rewrite !write_insert, ?append_assoc, ?append_nil_r. done.
Qed.

(** With at most three UV arrays, [record_uvs] succeeds and adds one line
    per array and the closing empty line: on an empty list it adds the
    empty line alone. *)
Theorem record_uvs_line_count uv path it w :
  (length uv ≤ 3)%nat →
  let p := Py.path_join path "uv.txt" in
  let r := record_uvs uv path it w in
  r.1 = Py.Ok tt
  ∧ (∃ c, fs r.2 !! p = Some c
        ∧ Py.count_nl c
          = (Py.count_nl (default "" (fs w !! p)) + length uv + 1)%nat)
  ∧ (uv = [] → fs r.2 !! p = Some (default "" (fs w !! p) +:+ Py.nl)).
Proof.
  intros Hlen p r. subst r. rewrite record_uvs_run by done. fold p.
  destruct w as [G D T og od ge rr f cs]. proj. cbn [fst snd].
  split; [done|]. split.
  - eexists. split; [apply lookup_insert_eq|].
    unfold uv_text. rewrite !count_nl_app.
    destruct uv as [|a1 [|a2 [|a3 [|a4 uv]]]]; [..|cbn in Hlen; lia];
      cbn [zip_with String.concat length];
      rewrite ?count_nl_app, ?count_nl_txt_line by done;
      change (Py.count_nl "") with 0%nat;
      change (Py.count_nl Py.nl) with 1%nat; lia.
  - intros ->. rewrite lookup_insert_eq. reflexivity.
Qed.

(** Two calls of [record_uvs] on the same directory leave the old text of
    [uv.txt] followed by the block of the first call and then the block of
    the second: the log is only ever extended. *)
Theorem record_uvs_twice uv1 uv2 path it1 it2 w :
  (length uv1 ≤ 3)%nat →
  (length uv2 ≤ 3)%nat →
  let p := Py.path_join path "uv.txt" in
  record_uvs uv2 path it2 (record_uvs uv1 path it1 w).2
  = (Py.Ok tt,
     set_fs (<[p := default "" (fs w !! p)
                    +:+ uv_text it1 uv1 +:+ uv_text it2 uv2]> (fs w)) w).
Proof.
  intros H1 H2 p. rewrite (record_uvs_run uv1) by done.
  rewrite (record_uvs_run uv2) by done. fold p.
  destruct w as [G D T og od ge rr f cs]. proj. cbn [fst snd]. proj.
  rewrite lookup_insert_eq, insert_insert_eq. cbn [default].
  cbv [id]. by rewrite append_assoc.
Qed.

Lemma pairs_odd_tail (x : Qc) : ∀ n (l : list Qc),
  length l = (2 * n)%nat → pairs (l ++ [x]) = pairs l.
Proof.
  induction n as [|n IH]; intros l Hl.
  - by destruct l.
  - destruct l as [|a [|b l]]; cbn in Hl; [lia..|].
    cbn [app pairs]. rewrite IH; [done|lia].
Qed.

(** The values of an array are logged two by two: a last value without
    a partner is left out of the line. *)
Theorem txt_line_odd_tail it name (a : list (list Qc)) (x : Qc) :
  Nat.even (length (concat a)) = true →
  txt_line it name (a ++ [[x]]) = txt_line it name a.
Proof.
  intros He. unfold txt_line.
  rewrite concat_app. cbn [concat]. rewrite app_nil_r.
  apply Nat.even_spec in He as [n Hn].
  by rewrite (pairs_odd_tail x n).
Qed.

End LoggingEdges.
(** ** Visualisation at its edges *)

Section VisualisationEdges.
Context `{F : Framework}.

Lemma visualize_world self data it mode val_idx w :
  outputs_only (selected_in_eval_mode w)
    (visualize self data it mode val_idx w).2.
Proof.
  unfold visualize, get_image, outputs_only, selected_in_eval_mode.
  destruct self as [vd vvd mg fd k rw].
  destruct w as [[pg rg tg gg] D T og od ge r f c].
  destruct (data !! "image") as [x|], T as [t|]; exec_vis; try reflexivity.
  all: destruct (bool_decide (mode = Some "val")).
  all: repeat first
    [ reflexivity
    | match goal with
      | |- context [sum_metrics ?a ?b ?w0] =>
        let H := fresh in
        pose proof (sum_metrics_world a b w0) as H;
        destruct (sum_metrics a b w0) as [[?|?] ?]; cbn [snd] in H; subst
      | |- context [record_uvs ?a ?b ?i ?w0] =>
        let H := fresh in
        pose proof (record_uvs_files_only a b i w0) as H;
        destruct (record_uvs a b i w0) as [[[]|?] ?]; cbn [snd] in H;
        rewrite H; clear H; proj; cbn [snd]
      | |- context [bool_decide ?P] => destruct (bool_decide P)
      | |- context [match ?d with Some _ => _ | None => _ end] =>
        is_var d; destruct d
      end
    | progress exec_vis ].
Qed.

(** Whatever its arguments and the world, and whether it returns or
    raises, [visualize] changes no parameter, gradient or optimizer,
    leaves the discriminator as it is, puts gradient mode back and leaves
    the selected generator in evaluation mode. *)
Theorem visualize_frame self data it mode val_idx w :
  let w' := (visualize self data it mode val_idx w).2 in
  params (generator w') = params (generator w)
  ∧ grad (generator w') = grad (generator w)
  ∧ requires_grad (generator w') = requires_grad (generator w)
  ∧ discriminator w' = discriminator w
  ∧ params <$> generator_test w' = params <$> generator_test w
  ∧ optimizer w' = optimizer w
  ∧ optimizer_d w' = optimizer_d w
  ∧ grad_enabled w' = grad_enabled w
  ∧ (training <$> net_of (selected w) w') = Some false.
Proof.
  intros w'. subst w'.
  pose proof (visualize_world self data it mode val_idx w) as H.
  unfold outputs_only in H. rewrite H. clear H.
  generalize (fs (visualize self data it mode val_idx w).2).
  generalize (calls (visualize self data it mode val_idx w).2).
  generalize (rng (visualize self data it mode val_idx w).2).
  intros r' c' f'. unfold selected, selected_in_eval_mode.
  destruct w as [[pg rg tg gg] D T og od ge r f c].
  destruct T as [t|]; repeat split; reflexivity.
Qed.

(** A visualisation between two training steps reaches the next training
    step through the random state only: after [visualize] the step
    returns the same metrics, or the same exception, and reaches the same
    networks and optimizer states as it does from the world before the
    visualisation with the random state the visualisation left. *)
Theorem train_step_after_visualize self data it mode val_idx data' it' w :
  let w_v := (visualize self data it mode val_idx w).2 in
  let r := train_step self data' it' w_v in
  let r' := train_step self data' it' (set_rng (rng w_v) w) in
  r.1 = r'.1
  ∧ generator r.2 = generator r'.2
  ∧ discriminator r.2 = discriminator r'.2
  ∧ params <$> generator_test r.2 = params <$> generator_test r'.2
  ∧ optimizer r.2 = optimizer r'.2
  ∧ optimizer_d r.2 = optimizer_d r'.2.
Proof.
  intros w_v. subst w_v.
  pose proof (visualize_world self data it mode val_idx w) as H.
  unfold outputs_only in H. rewrite H. clear H.
  generalize (fs (visualize self data it mode val_idx w).2).
  generalize (calls (visualize self data it mode val_idx w).2).
  generalize (rng (visualize self data it mode val_idx w).2).
  intros r0 c0 f0.
  unfold train_step, train_step_generator, train_step_discriminator,
    get_image, selected_in_eval_mode.
  destruct self as [vd vvd mg fd k rw].
  destruct w as [[pg rg tg gg] [pd rd td gd] T og od ge r f c].
  destruct (data' !! "image") as [x|], T as [t|], mg, ge, rw;
    exec; repeat split; reflexivity.
Qed.

(** On a batch without an image, [visualize] raises on the missing
    tensor before the generator is called: nothing is drawn, logged or
    written, and all that is left is the evaluation mode of the selected
    generator. *)
Theorem visualize_without_image self data it mode val_idx w :
  data !! "image" = None →
  visualize self data it mode val_idx w
  = (Py.Raise Py.AttributeError, selected_in_eval_mode w).
Proof.
  intros Hx. unfold visualize, get_image, selected_in_eval_mode.
  rewrite Hx.
  destruct w as [[pg rg tg gg] D T og od ge r f c].
  destruct T as [t|]; exec_vis; reflexivity.
Qed.

(** When the directory of the mode is [None] and the call gets as far as
    saving, it raises and writes no file, although the generator has been
    called; outside validation mode the exception is the [TypeError] of
    [os.path.join]. *)
Theorem visualize_without_directory self data it mode val_idx w x :
  data !! "image" = Some x →
  (if bool_decide (mode = Some "val") then val_vis_dir self else vis_dir self)
  = None →
  (mode = Some "val" → val_idx = Some true) →
  let r := visualize self data it mode val_idx w in
  (∃ e, r.1 = Py.Raise e)
  ∧ (mode ≠ Some "val" → r.1 = Py.Raise Py.TypeError)
  ∧ fs r.2 = fs w
  ∧ calls r.2 = calls w ++ [Forward NGenerator false].
Proof.
  intros Hx Hd Hidx r. subst r.
  unfold visualize, get_image. rewrite Hx.
  destruct self as [vd vvd mg fd k rw]. cbv [val_vis_dir vis_dir] in Hd.
  destruct w as [[pg rg tg gg] D T og od ge r f c].
  case_bool_decide as Hmode.
  - subst vvd. rewrite (Hidx Hmode). subst mode.
    rewrite (bool_decide_eq_true_2 (Some true = Some true)) by done.
    unfold save_grid.
    rewrite !(bool_decide_eq_true_2 (Some "val" = Some "val")) by done.
    destruct T as [t|]; exec_vis;
      match goal with
      | |- context [sum_metrics ?a ?b ?w0] =>
        let H := fresh in
        pose proof (sum_metrics_world a b w0) as H;
        destruct (sum_metrics a b w0) as [[?|?] ?]; cbn [snd] in H; subst
      end; exec_vis;
      repeat match goal with
             | |- context [bool_decide ?P] => destruct (bool_decide P)
             end;
      exec_vis; rewrite <- ?app_assoc; (split; [eauto|]); split; done.
  - subst vd. unfold save_grid. rewrite !(bool_decide_eq_false_2 _ Hmode).
    destruct T as [t|]; exec_vis; rewrite <- ?app_assoc;
      (split; [eauto|]); split; done.
Qed.

(** In validation mode an empty batch makes [visualize] raise
    [ZeroDivisionError] at the mean of the metrics, after the generator
    has been called and before any file is written. *)
Theorem visualize_empty_batch self data it val_idx w :
  data !! "image" = Some [] →
  let r := visualize self data it (Some "val") val_idx w in
  r.1 = Py.Raise Py.ZeroDivisionError
  ∧ fs r.2 = fs w
  ∧ calls r.2 = calls w ++ [Forward NGenerator false].
Proof.
  intros Hx r. subst r.
  unfold visualize, get_image, sum_metrics. rewrite Hx.
  rewrite (bool_decide_eq_true_2 (Some "val" = Some "val")) by done.
  destruct self as [vd vvd mg fd k rw].
  destruct w as [[pg rg tg gg] D T og od ge r f c].
  destruct T as [t|]; exec_vis; cbn [length seq foldM]; exec_vis;
    rewrite <- ?app_assoc; done.
Qed.

End VisualisationEdges.
(** ** The names of the snapshots *)

(** A string that starts with a digit other than zero. *)
Lemma pretty_N_go_lead (x : N) : ∀ s,
  (0 < x)%N →
  ∃ c r, pretty_N_go x s = String c r ∧ c ≠ "0"%char ∧ c ≠ "-"%char.
Proof.
  induction (N.lt_wf_0 x) as [x _ IH]; intros s Hx.
  rewrite pretty_N_go_step by done.
  destruct (N.eq_0_gt_0_cases (x `div` 10)) as [H0|Hpos].
  - rewrite H0, pretty_N_go_0.
    apply N.div_small_iff in H0; [|done].
    rewrite N.mod_small by done.
    eexists _, _. split; [done|].
    assert (x = 1 ∨ x = 2 ∨ x = 3 ∨ x = 4 ∨ x = 5 ∨ x = 6
            ∨ x = 7 ∨ x = 8 ∨ x = 9)%N as Hd by lia.
    repeat match type of Hd with _ ∨ _ => destruct Hd as [->|Hd] end;
      try subst x; by split.
  - apply IH; [|done]. by apply N.div_lt.
Qed.

Lemma pretty_Z_lead (n : Z) :
  0 < n → ∃ c r, pretty n = String c r ∧ c ≠ "0"%char ∧ c ≠ "-"%char.
Proof.
  destruct n as [|p|p]; [lia| |lia]. intros _.
  unfold pretty, pretty_Z, pretty, pretty_positive, pretty, pretty_N.
  rewrite decide_False by done. by apply pretty_N_go_lead.
Qed.

Lemma zeros_snoc (k : nat) : Py.zeros k +:+ "0" = Py.zeros (S k).
Proof.
  induction k as [|k IH]; [done|].
  cbn [Py.zeros]. by rewrite append_cons, IH.
Qed.

Lemma zeros_lead_inj (a b : nat) (s t : string) :
  (s = "" ∨ ∃ c r, s = String c r ∧ c ≠ "0"%char) →
  (t = "" ∨ ∃ c r, t = String c r ∧ c ≠ "0"%char) →
  Py.zeros a +:+ s = Py.zeros b +:+ t → a = b ∧ s = t.
Proof.
  intros Hs Ht. revert b.
  induction a as [|a IH]; intros [|b]; cbn [Py.zeros];
    rewrite ?append_cons; change ("" +:+ ?x) with x.
  - done.
  - intros ->. destruct Hs as [?|(c & r & ? & ?)]; simplify_eq.
  - intros <-. destruct Ht as [?|(c & r & ? & ?)]; simplify_eq.
  - intros [= H]. apply IH in H as [-> ->]. done.
Qed.

Lemma zfill_left_pretty_inj (w : nat) (n m : Z) :
  (0 < w)%nat → 0 ≤ n → 0 ≤ m →
  Py.zfill_left w (pretty n) = Py.zfill_left w (pretty m) → n = m.
Proof.
  intros Hw Hn Hm. unfold Py.zfill_left.
  assert (Hnorm : ∀ k : Z, 0 ≤ k →
    ∃ a s, Py.zeros (w - String.length (pretty k)) +:+ pretty k
           = Py.zeros a +:+ s
      ∧ (s = "" ∨ ∃ c r, s = String c r ∧ c ≠ "0"%char)
      ∧ (s = "" → k = 0) ∧ (s ≠ "" → s = pretty k)).
  { intros k Hk. assert (k = 0 ∨ 0 < k) as [->|Hpos] by lia.
    - exists (S (w - 1)), "". change (pretty 0) with "0".
      rewrite zeros_snoc, append_nil_r. cbn [String.length]. naive_solver.
    - destruct (pretty_Z_lead k Hpos) as (c & r & Hc & H0 & _).
      exists (w - String.length (pretty k))%nat, (pretty k).
      split; [done|]. split; [right; eauto|].
      split; [rewrite Hc; discriminate|done]. }
  destruct (Hnorm n Hn) as (a & s & -> & Hs & Hs0 & Hs1).
  destruct (Hnorm m Hm) as (b & t & -> & Ht & Ht0 & Ht1).
  intros [_ <-]%zeros_lead_inj; [|done..].
  destruct (decide (s = "")) as [->|Hne].
  - by rewrite Hs0, Ht0.
  - apply (inj pretty). by rewrite <- Hs1, <- Ht1.
Qed.

Lemma zfill_left_pretty_head (w : nat) (n : Z) (t : string) :
  0 ≤ n → Py.zfill_left w (pretty n) ≠ String "-" t.
Proof.
  intros Hn. unfold Py.zfill_left.
  destruct (w - String.length (pretty n))%nat as [|k]; cbn [Py.zeros].
  - change ("" +:+ ?x) with x.
    assert (n = 0 ∨ 0 < n) as [->|Hpos] by lia; [done|].
    destruct (pretty_Z_lead n Hpos) as (c & r & -> & _ & Hd). congruence.
  - rewrite append_cons. discriminate.
Qed.

(** ['%010d'] gives different iterations different names. *)
Lemma fmt_010d_inj (n m : Z) : Py.fmt_010d n = Py.fmt_010d m → n = m.
Proof.
  unfold Py.fmt_010d, Py.str_int.
  destruct (Z.ltb_spec n 0) as [Hn|Hn], (Z.ltb_spec m 0) as [Hm|Hm];
    rewrite ?append_cons; change ("" +:+ ?x) with x.
  - intros [= E]. apply zfill_left_pretty_inj in E; lia.
  - intros E. symmetry in E. by apply zfill_left_pretty_head in E.
  - intros E. by apply zfill_left_pretty_head in E.
  - by apply zfill_left_pretty_inj; [lia|..].
Qed.

Lemma append_inj_r (a b c : string) : a +:+ c = b +:+ c → a = b.
Proof.
  revert b. induction a as [|x a IH]; intros [|y b]; rewrite ?append_cons;
    change ("" +:+ ?z) with z; intros H.
  - done.
  - apply (f_equal String.length) in H. cbn in H.
    rewrite length_append in H. lia.
  - apply (f_equal String.length) in H. cbn in H.
    rewrite length_append in H. lia.
  - injection H as -> H'. by rewrite (IH b H').
Qed.

Lemma snapshot_path_inj (d : string) (n m : Z) :
  snapshot_path d n = snapshot_path d m → n = m.
Proof.
  unfold snapshot_path. intros H%path_join_inj.
  apply (inj (String.append "visualization_")) in H.
  apply append_inj_r in H. by apply fmt_010d_inj.
Qed.

Lemma snapshot_path_not_uv (d : string) (n : Z) :
  snapshot_path d n ≠ Py.path_join d "uv.txt".
Proof. unfold snapshot_path. intros H%path_join_inj. discriminate. Qed.

Section Snapshots.
Context `{F : Framework}.

(** Two visualisations outside validation mode, one after the other: the
    second writes its grid under the name of its own iteration, the grid
    of the first is still in its file when the iterations differ and is
    overwritten when they are the same, and [uv.txt] holds the block of
    the first followed by the block of the second. *)
Theorem visualize_twice self data1 data2 it1 it2 mode v1 v2 w x1 x2 d :
  data1 !! "image" = Some x1 →
  data2 !! "image" = Some x2 →
  mode ≠ Some "val" →
  vis_dir self = Some d →
  let w1 := (visualize self data1 it1 mode v1 w).2 in
  let w2 := (visualize self data2 it2 mode v2 w1).2 in
  let out1 := visualize_out w x1 in
  let out2 := visualize_out w1 x2 in
  (length (uvs out1) ≤ 3)%nat →
  (length (uvs out2) ≤ 3)%nat →
  fs w2 !! snapshot_path d it2 = Some (png_encode (grid_of x2 out2))
  ∧ (it1 ≠ it2 →
     fs w2 !! snapshot_path d it1 = Some (png_encode (grid_of x1 out1)))
  ∧ fs w2 !! Py.path_join d "uv.txt"
    = Some (default "" (fs w !! Py.path_join d "uv.txt")
            +:+ uv_text it1 (uvs out1) +:+ uv_text it2 (uvs out2)).
Proof.
  intros Hx1 Hx2 Hmode Hd w1 w2 out1 out2 Hu1 Hu2.
  destruct (visualize_snapshot self data1 it1 mode v1 w x1 d Hx1 Hmode Hd Hu1)
    as (_ & Hfs1 & _).
  destruct (visualize_snapshot self data2 it2 mode v2 w1 x2 d Hx2 Hmode Hd Hu2)
    as (_ & Hfs2 & _).
  fold w1 in Hfs1. fold w2 in Hfs2. fold out1 in Hfs1. fold out2 in Hfs2.
  fold (snapshot_path d it1) in Hfs1. fold (snapshot_path d it2) in Hfs2.
  rewrite Hfs2, Hfs1. clear Hfs1 Hfs2.
  pose proof (snapshot_path_not_uv d it1) as Hn1.
  pose proof (snapshot_path_not_uv d it2) as Hn2.
  split; [|split].
  - rewrite lookup_insert_ne by done. by rewrite lookup_insert_eq.
  - intros Hit.
    assert (snapshot_path d it1 ≠ snapshot_path d it2) as Hp
      by (intros E%snapshot_path_inj; done).
    rewrite lookup_insert_ne by done.
    rewrite lookup_insert_ne by done.
    rewrite lookup_insert_ne by done.
    by rewrite lookup_insert_eq.
  - rewrite !lookup_insert_eq.
    change (default "" (Some ?c)) with c. by rewrite append_assoc.
Qed.

End Snapshots.
(** ** The further properties on the small trainer *)


Lemma train_step_without_weight_witness :
  Toy.batch !! "image" = Some Toy.image
  ∧ recon_weight default_trainer = None
  ∧ (train_step default_trainer Toy.batch None (Toy.world None)).1
    = Py.Raise Py.TypeError.
Proof.
  assert (H1 : Toy.batch !! "image" = Some Toy.image)
    by (vm_compute; reflexivity).
  assert (H2 : recon_weight default_trainer = None) by reflexivity.
  split; [exact H1|]. split; [exact H2|].
  exact (proj1 (train_step_without_weight default_trainer Toy.batch None
                  (Toy.world None) Toy.image H1 H2)).
Defined.

Lemma train_step_under_no_grad_witness :
  Toy.batch !! "image" = Some Toy.image
  ∧ recon_weight (Toy.trainer 1) = Some 2%Qc
  ∧ grad_enabled (set_grad_enabled false (Toy.world None)) = false
  ∧ (train_step (Toy.trainer 1) Toy.batch None
       (set_grad_enabled false (Toy.world None))).1
    = Py.Raise Py.RuntimeError.
Proof.
  assert (H1 : Toy.batch !! "image" = Some Toy.image)
    by (vm_compute; reflexivity).
  assert (H2 : recon_weight (Toy.trainer 1) = Some 2%Qc) by reflexivity.
  assert (H3 : grad_enabled (set_grad_enabled false (Toy.world None)) = false)
    by reflexivity.
  split; [exact H1|]. split; [exact H2|]. split; [exact H3|].
  exact (proj1 (train_step_under_no_grad (Toy.trainer 1) Toy.batch None
                  (set_grad_enabled false (Toy.world None)) Toy.image 2%Qc
                  H1 H2 H3)).
Defined.

Lemma train_step_discriminator_sees_updated_generator_witness :
  Toy.batch !! "image" = Some Toy.image
  ∧ recon_weight (Toy.trainer 1) = Some 2%Qc
  ∧ grad_enabled (Toy.world None) = true
  ∧ ∃ m, (train_step (Toy.trainer 1) Toy.batch None (Toy.world None)).1
         = Py.Ok m.
Proof.
  assert (H1 : Toy.batch !! "image" = Some Toy.image)
    by (vm_compute; reflexivity).
  assert (H2 : recon_weight (Toy.trainer 1) = Some 2%Qc) by reflexivity.
  assert (H3 : grad_enabled (Toy.world None) = true) by reflexivity.
  split; [exact H1|]. split; [exact H2|]. split; [exact H3|].
  destruct (train_step_discriminator_sees_updated_generator (Toy.trainer 1)
              Toy.batch None (Toy.world None) Toy.image 2%Qc H1 H2 H3)
    as (m & Hm & _).
  exists m. exact Hm.
Defined.

Lemma eval_step_missing_statistics_witness :
  (0 < n_eval_iterations default_trainer)%nat
  ∧ fid_dict default_trainer !! "m" = None
  ∧ (eval_step default_trainer (Toy.world None)).1
    = Py.Raise (Py.KeyError "m").
Proof.
  assert (H1 : (0 < n_eval_iterations default_trainer)%nat)
    by (vm_compute; lia).
  assert (H2 : fid_dict default_trainer !! "m" = None) by reflexivity.
  split; [exact H1|]. split; [exact H2|].
  exact (proj1 (eval_step_missing_statistics default_trainer (Toy.world None)
                  H1) H2).
Defined.

Lemma record_uvs_fourth_array_witness :
  (3 < length four_uvs)%nat
  ∧ (record_uvs four_uvs "out/vis" 7 (Toy.world None)).1
    = Py.Raise (Py.KeyError "3").
Proof.
  assert (H1 : (3 < length four_uvs)%nat) by (vm_compute; lia).
  split; [exact H1|].
  exact (proj1 (record_uvs_fourth_array four_uvs "out/vis" 7
                  (Toy.world None) H1)).
Defined.

Lemma record_uvs_line_count_witness :
  (length (@nil (list (list Qc))) ≤ 3)%nat
  ∧ (record_uvs [] "out/vis" 7 (Toy.world None)).1 = Py.Ok tt.
Proof.
  assert (H1 : (length (@nil (list (list Qc))) ≤ 3)%nat) by (cbn; lia).
  split; [exact H1|].
  exact (proj1 (record_uvs_line_count [] "out/vis" 7 (Toy.world None) H1)).
Defined.

Lemma record_uvs_twice_witness :
  (length (take 2 four_uvs) ≤ 3)%nat
  ∧ (length (take 3 four_uvs) ≤ 3)%nat
  ∧ (record_uvs (take 3 four_uvs) "out/vis" 8
       (record_uvs (take 2 four_uvs) "out/vis" 7 (Toy.world None)).2).1
    = Py.Ok tt.
Proof.
  assert (H1 : (length (take 2 four_uvs) ≤ 3)%nat) by (vm_compute; lia).
  assert (H2 : (length (take 3 four_uvs) ≤ 3)%nat) by (vm_compute; lia).
  split; [exact H1|]. split; [exact H2|].
  exact (f_equal fst (record_uvs_twice (take 2 four_uvs) (take 3 four_uvs)
                        "out/vis" 7 8 (Toy.world None) H1 H2)).
Defined.

Lemma txt_line_odd_tail_witness :
  Nat.even (length (concat [[1; 2]%Qc])) = true
  ∧ txt_line 7 "pred" ([[1; 2]] ++ [[Qc_of_Z 3]])%Qc
    = txt_line 7 "pred" [[1; 2]%Qc].
Proof.
  assert (H1 : Nat.even (length (concat [[1; 2]%Qc])) = true) by reflexivity.
  split; [exact H1|].
  exact (txt_line_odd_tail 7 "pred" [[1; 2]%Qc] (Qc_of_Z 3) H1).
Defined.

Lemma visualize_without_image_witness :
  no_image !! "image" = None
  ∧ (visualize (Toy.trainer 1) no_image 5 None None
       (Toy.world (Some Toy.averaged))).1
    = Py.Raise Py.AttributeError.
Proof.
  assert (H1 : no_image !! "image" = None) by reflexivity.
  split; [exact H1|].
  exact (f_equal fst (visualize_without_image (Toy.trainer 1) no_image 5
                        None None (Toy.world (Some Toy.averaged)) H1)).
Defined.

Lemma visualize_without_directory_witness :
  Toy.batch !! "image" = Some Toy.image
  ∧ (if bool_decide ((None : option string) = Some "val")
     then val_vis_dir default_trainer else vis_dir default_trainer) = None
  ∧ (visualize default_trainer Toy.batch 5 None None (Toy.world None)).1
    = Py.Raise Py.TypeError.
Proof.
  assert (H1 : Toy.batch !! "image" = Some Toy.image)
    by (vm_compute; reflexivity).
  assert (H2 : (if bool_decide ((None : option string) = Some "val")
                then val_vis_dir default_trainer
                else vis_dir default_trainer) = None) by reflexivity.
  assert (H3 : (None : option string) = Some "val" →
               (None : option bool) = Some true) by discriminate.
  assert (H4 : (None : option string) ≠ Some "val") by discriminate.
  split; [exact H1|]. split; [exact H2|].
  exact (proj1 (proj2 (visualize_without_directory default_trainer Toy.batch
                         5 None None (Toy.world None) Toy.image H1 H2 H3))
           H4).
Defined.

Lemma visualize_empty_batch_witness :
  empty_batch !! "image" = Some []
  ∧ (visualize (Toy.trainer 1) empty_batch 5 (Some "val") None
       (Toy.world None)).1
    = Py.Raise Py.ZeroDivisionError.
Proof.
  assert (H1 : empty_batch !! "image" = Some []) by (vm_compute; reflexivity).
  split; [exact H1|].
  exact (proj1 (visualize_empty_batch (Toy.trainer 1) empty_batch 5 None
                  (Toy.world None) H1)).
Defined.

Lemma visualize_twice_witness :
  Toy.batch !! "image" = Some Toy.image
  ∧ (None : option string) ≠ Some "val"
  ∧ vis_dir (Toy.trainer 1) = Some "out/vis"
  ∧ (5 ≠ 6)%Z
  ∧ is_Some
      (fs (visualize (Toy.trainer 1) Toy.batch 6 None None
             (visualize (Toy.trainer 1) Toy.batch 5 None None
                (Toy.world None)).2).2
       !! snapshot_path "out/vis" 5).
Proof.
  assert (H1 : Toy.batch !! "image" = Some Toy.image)
    by (vm_compute; reflexivity).
  assert (H2 : (None : option string) ≠ Some "val") by discriminate.
  assert (H3 : vis_dir (Toy.trainer 1) = Some "out/vis") by reflexivity.
  assert (H4 : (5 ≠ 6)%Z) by lia.
  assert (H5 : (length (uvs (visualize_out (Toy.world None) Toy.image))
                ≤ 3)%nat) by (vm_compute; lia).
  assert (H6 : (length (uvs (visualize_out
                              (visualize (Toy.trainer 1) Toy.batch 5 None None
                                 (Toy.world None)).2 Toy.image))
                ≤ 3)%nat) by (vm_compute; lia).
  split; [exact H1|]. split; [exact H2|]. split; [exact H3|].
  split; [exact H4|].
  eexists.
  exact (proj1 (proj2 (visualize_twice (Toy.trainer 1) Toy.batch Toy.batch
                         5 6 None None None (Toy.world None) Toy.image
                         Toy.image "out/vis" H1 H1 H2 H3 H5 H6)) H4).
Defined.
